(** * Scheduled reports: the declarative <-> wire reconciliation of
    [internal/resources/grafana/resource_report.go].

    The development embeds the report resource of the provider: the
    custom-interval grammar, the schedule translation in both
    directions, the dashboard binding resolution, the assembly of the
    wire command and the four lifecycle operations, and proves what the
    specification says about them. *)

From Stdlib Require Import String Ascii List ZArith Lia Bool.
From Equations Require Import Equations.
Import ListNotations.

Local Open Scope string_scope.
Local Open Scope Z_scope.

(* ===================================================================== *)
(** * Go library functions the resource calls *)
(* ===================================================================== *)

(** Go's [strings] package, restricted to separators of one byte (the
    resource only ever splits on [" "] and [","]). *)
Module strings.

(** [strings.Split(s, sep)]: the pieces of [s] between the occurrences
    of [sep]; never empty; [Split("", sep) = [""]]. *)
Fixpoint Split (s : string) (sep : ascii) : list string :=
  match s with
  | EmptyString => [EmptyString]
  | String c rest =>
      if Ascii.eqb c sep then EmptyString :: Split rest sep
      else match Split rest sep with
           | piece :: pieces => String c piece :: pieces
           | [] => [String c EmptyString]
           end
  end.

(** [strings.Join(elems, sep)]. *)
Fixpoint Join (elems : list string) (sep : string) : string :=
  match elems with
  | [] => EmptyString
  | [e] => e
  | e :: rest => e ++ sep ++ Join rest sep
  end.

(** No byte of [s] is [c]. *)
Fixpoint lacks (c : ascii) (s : string) : bool :=
  match s with
  | EmptyString => true
  | String d rest => negb (Ascii.eqb d c) && lacks c rest
  end.

End strings.

(** Go's [strconv] package on a 64-bit platform. *)
Module strconv.

Definition MaxInt : Z := 2 ^ 63 - 1.
Definition MinInt : Z := - 2 ^ 63.

(** The value of a decimal digit, [ch - '0'] when that is at most 9. *)
Definition digitVal (ch : ascii) : option Z :=
  let b := Z.of_nat (nat_of_ascii ch) in
  if (48 <=? b) && (b <=? 57) then Some (b - 48) else None.

(** The digit loop: [n = n*10 + int(ch)] for each byte, a syntax error
    on a byte that is no digit. *)
Fixpoint parseDigits (n : Z) (s : string) : option Z :=
  match s with
  | EmptyString => Some n
  | String ch rest =>
      match digitVal ch with
      | Some d => parseDigits (n * 10 + d) rest
      | None => None
      end
  end.

(** [strconv.Atoi]: an optional sign, then one or more decimal digits,
    the value within the range of [int].  [None] stands for the
    [*NumError] (syntax or range) that Go returns. *)
Definition Atoi (s : string) : option Z :=
  match s with
  | EmptyString => None
  | String c rest =>
      let neg := Ascii.eqb c "-" in
      let body := if neg || Ascii.eqb c "+" then rest else s in
      match body with
      | EmptyString => None
      | _ =>
          match parseDigits 0 body with
          | None => None
          | Some un =>
              let n := if neg then - un else un in
              if (MinInt <=? n) && (n <=? MaxInt) then Some n else None
          end
      end
  end.

Definition digitChar (d : Z) : ascii := ascii_of_nat (48 + Z.to_nat d).

(** The decimal digits of a non-negative integer, most significant
    first, as [formatBits] produces them. *)
Equations? formatUint (n : Z) : string by wf (Z.to_nat n) lt :=
  formatUint n with Z_lt_dec n 10 => {
    | left _ := String (digitChar n) EmptyString;
    | right _ := formatUint (n / 10) ++ String (digitChar (n mod 10)) EmptyString }.
Proof.
  apply Z2Nat.inj_lt; try lia.
  - apply Z.div_pos; lia.
  - apply Z.div_lt; lia.
Qed.

(** [strconv.FormatInt(n, 10)], which is also what the verb [%d]
    prints. *)
Definition FormatInt (n : Z) : string :=
  if n <? 0 then String "-" (formatUint (- n)) else formatUint n.

End strconv.

(** Go's [fmt] package: the two format strings the resource uses. *)
Module fmt.

(** [fmt.Sprintf("%d %s", amount, unit)]. *)
Definition Sprintf_d_s (amount : Z) (unit : string) : string :=
  strconv.FormatInt amount ++ " " ++ unit.

(** [fmt.Sprintf("%d:%d", a, b)]. *)
Definition Sprintf_d_d (a b : Z) : string :=
  strconv.FormatInt a ++ ":" ++ strconv.FormatInt b.

End fmt.

(** Go's [time] package: instants, and [Parse] on the RFC 3339 layout. *)
Module time.

(** A [time.Time]: the absolute instant in nanoseconds since
    0001-01-01T00:00:00Z (the zero [Time]) and the offset of its
    location in seconds east of UTC. *)
Record Time : Type := mkTime { abs : Z; zone : Z }.

Definition zero : Time := mkTime 0 0.
Definition UTC (t : Time) : Time := mkTime (abs t) 0.
Definition Before (t u : Time) : bool := abs t <? abs u.
Definition Equal (t u : Time) : bool := abs t =? abs u.

Definition isLeap (year : Z) : bool :=
  (year mod 4 =? 0) && (negb (year mod 100 =? 0) || (year mod 400 =? 0)).

Definition daysIn (month year : Z) : Z :=
  if month =? 2 then (if isLeap year then 29 else 28)
  else if (month =? 4) || (month =? 6) || (month =? 9) || (month =? 11) then 30
  else 31.

(** Days of the year before the first of [month]. *)
Definition daysBefore (month year : Z) : Z :=
  nth (Z.to_nat (month - 1)) [0; 31; 59; 90; 120; 151; 181; 212; 243; 273; 304; 334] 0
  + (if (2 <? month) && isLeap year then 1 else 0).

(** Days from 0001-01-01 to the given civil date. *)
Definition daysSinceZero (year month day : Z) : Z :=
  let y := year - 1 in
  y * 365 + y / 4 - y / 100 + y / 400 + daysBefore month year + (day - 1).

(** [time.Date(year, month, day, hour, min, sec, nsec, UTC)]. *)
Definition Date (year month day hour min sec nsec : Z) : Time :=
  mkTime ((((daysSinceZero year month day * 24 + hour) * 60 + min) * 60 + sec)
          * 1000000000 + nsec) 0.

Definition isDigit (c : ascii) : bool :=
  match strconv.digitVal c with Some _ => true | None => false end.

(** The leading digits of [s] and what follows them. *)
Fixpoint spanDigits (s : string) : string * string :=
  match s with
  | String c rest =>
      if isDigit c then let '(ds, tl) := spanDigits rest in (String c ds, tl)
      else (EmptyString, s)
  | EmptyString => (EmptyString, EmptyString)
  end.

(** [parseNanoseconds]: the first nine fractional digits, scaled. *)
Definition parseNanoseconds (ds : string) : Z :=
  let kept := substring 0 9 ds in
  match strconv.parseDigits 0 kept with
  | Some v => v * 10 ^ (9 - Z.of_nat (String.length kept))
  | None => 0
  end.

Definition byteIs (s : string) (i : nat) (c : ascii) : bool :=
  match get i s with Some d => Ascii.eqb d c | None => false end.

(** [s[n:]]. *)
Definition from (n : nat) (s : string) : string := substring n (String.length s - n) s.

(** [getnum]: the number made of the one or two leading digits of [s]
    and what follows them; with [fixed] there must be two digits. *)
Definition getnum (s : string) (fixed : bool) : option (Z * string) :=
  match s with
  | String c rest =>
      match strconv.digitVal c with
      | Some a =>
          match rest with
          | String c' rest' =>
              match strconv.digitVal c' with
              | Some b => Some (a * 10 + b, rest')
              | None => if fixed then None else Some (a, rest)
              end
          | EmptyString => if fixed then None else Some (a, rest)
          end
      | None => None
      end
  | EmptyString => None
  end.

(** [skip], for a literal of the layout of one character (no space). *)
Definition skip (value : string) (prefix : ascii) : option string :=
  match value with
  | String c rest => if Ascii.eqb c prefix then Some rest else None
  | EmptyString => None
  end.

(** The chunk [2006] of a layout: four characters, all of them digits. *)
Definition getyear (value : string) : option (Z * string) :=
  if (String.length value <? 4)%nat then None
  else
    match strconv.parseDigits 0 (substring 0 4 value) with
    | Some year => Some (year, from 4 value)
    | None => None
    end.

(** After the seconds: a fraction of a second is read although the
    layout has none, when a period or a comma and a digit follow. *)
Definition getfraction (value : string) : Z * string :=
  match value with
  | String p (String c tl) =>
      if (Ascii.eqb p "." || Ascii.eqb p ",") && isDigit c then
        let '(ds, after) := spanDigits (String c tl) in (parseNanoseconds ds, after)
      else (0, value)
  | _ => (0, value)
  end.

(** The chunk [Z07:00]: [Z], or a sign, two digits, a colon and two
    digits.  The range test lets an offset of 24 hours or of 60 minutes
    pass.  The result is the offset in seconds east of UTC. *)
Definition getzone (value : string) : option (Z * string) :=
  match value with
  | String "Z" rest => Some (0, rest)
  | _ =>
      if (String.length value <? 6)%nat || negb (byteIs value 3 ":") then None
      else
        match getnum (substring 1 2 value) true, getnum (substring 4 2 value) true with
        | Some (hr, _), Some (mm, _) =>
            if (24 <? hr) || (60 <? mm) then None
            else
              let zoneOffset := (hr * 60 + mm) * 60 in
              if byteIs value 0 "+" then Some (zoneOffset, from 6 value)
              else if byteIs value 0 "-" then Some (- zoneOffset, from 6 value)
              else None
        | _, _ => None
        end
  end.

Local Notation "' pat <~ e ;; k" :=
  (match e with Some pat => k | None => None end)
  (at level 61, pat pattern, e at next level, right associativity, only parsing).

(** [time.Parse(time.RFC3339, value)], chunk by chunk along the layout
    [2006-01-02T15:04:05Z07:00]: the year has four digits, month, day,
    minute and second two, the hour one or two; the day is checked
    against the month once everything is read; nothing may follow the
    zone.  [None] stands for the [*ParseError]. *)
Definition Parse_RFC3339 (value : string) : option Time :=
  '(year, value) <~ getyear value ;;
  'value <~ skip value "-" ;;
  '(month, value) <~ getnum value true ;;
  if (month <=? 0) || (12 <? month) then None else
  'value <~ skip value "-" ;;
  '(day, value) <~ getnum value true ;;
  'value <~ skip value "T" ;;
  '(hour, value) <~ getnum value false ;;
  if 24 <=? hour then None else
  'value <~ skip value ":" ;;
  '(min, value) <~ getnum value true ;;
  if 60 <=? min then None else
  'value <~ skip value ":" ;;
  '(sec, value) <~ getnum value true ;;
  if 60 <=? sec then None else
  let '(nsec, value) := getfraction value in
  '(zoneOffset, value) <~ getzone value ;;
  if negb (value =? "")%string then None
  else if (day <? 1) || (daysIn month year <? day) then None
  else
    let t := Date year month day hour min sec nsec in
    Some (mkTime (abs t - zoneOffset * 1000000000) zoneOffset).

(** The civil date of a day count since 0001-01-01, as
    [(year, month, day)]. *)
Definition civil (days : Z) : Z * Z * Z :=
  let z := days + 306 in
  let era := z / 146097 in
  let doe := z mod 146097 in
  let yoe := (doe - doe / 1460 + doe / 36524 - doe / 146096) / 365 in
  let doy := doe - (365 * yoe + yoe / 4 - yoe / 100) in
  let mp := (5 * doy + 2) / 153 in
  let d := doy - (153 * mp + 2) / 5 + 1 in
  let m := if mp <? 10 then mp + 3 else mp - 9 in
  let y := yoe + era * 400 + (if m <=? 2 then 1 else 0) in
  (y, m, d).

(** [n] in decimal, padded with zeros on the left to [width] digits. *)
Fixpoint pad (width : nat) (n : Z) : string :=
  match width with
  | O => EmptyString
  | S w => pad w (n / 10) ++ String (strconv.digitChar (n mod 10)) EmptyString
  end.

(** [t.Format("2006-01-02T15:04:05.000Z07:00")] for years 0 to 9999. *)
Definition FormatMillis (t : Time) : string :=
  let ns := abs t + zone t * 1000000000 in
  let secs := ns / 1000000000 in
  let '(y, m, d) := civil (secs / 86400) in
  let sod := secs mod 86400 in
  let off := Z.abs (zone t) / 60 in
  pad 4 y ++ "-" ++ pad 2 m ++ "-" ++ pad 2 d ++ "T"
    ++ pad 2 (sod / 3600) ++ ":" ++ pad 2 (sod / 60 mod 60) ++ ":" ++ pad 2 (sod mod 60)
    ++ "." ++ pad 3 (ns mod 1000000000 / 1000000)
    ++ (if zone t =? 0 then "Z"
        else (if zone t <? 0 then "-" else "+") ++ pad 2 (off / 60) ++ ":" ++ pad 2 (off mod 60)).

End time.

(* ===================================================================== *)
(** * Data model *)
(* ===================================================================== *)

(** A Go [error]: the dynamic types the resource meets. *)
Inductive error : Type :=
| errorString (msg : string)            (* [errors.New], [fmt.Errorf] *)
| NumError (func num : string)          (* [*strconv.NumError] *)
| ParseError (value : string)           (* [*time.ParseError] *)
| APIError (code : Z) (msg : string).   (* a failure the API client reports *)

(** An [interface{}] that the resource passes on without looking at it:
    [None] is [nil]. *)
Definition opaque : Type := option string.

(** What the resource needs from the libraries it links: the RFC 3339
    reader of [time.Parse] (which rejects the empty string) and the
    printer of [strfmt.DateTime]. *)
Class Runtime : Type := {
  time_Parse : string -> error + time.Time;
  DateTime_String : time.Time -> string;
  (** The empty string is no RFC 3339 time. *)
  time_Parse_empty : forall t, time_Parse "" <> inr t
}.

(** The wire model ([models] of the OpenAPI client), with the fields the
    resource reads or writes.  A pointer that the resource itself always
    allocates is a plain field; a pointer of the entity the server sends
    is an [option], [None] being [nil]. *)
Module TimeRangeDTO.
Record t : Type := mk { From : string; To : string }.
Definition empty : t := mk "" "".
End TimeRangeDTO.

Module DashboardReportDTO.
Record t : Type := mk { ID : Z; UID : string }.
End DashboardReportDTO.

Module DashboardDTO.
Record t : Type := mk {
  Dashboard : option DashboardReportDTO.t;
  ReportVariables : opaque;
  TimeRange : option TimeRangeDTO.t
}.
End DashboardDTO.

Module ReportOptionsDTO.
Record t : Type := mk {
  Layout : string;
  Orientation : string;
  TimeRange : option TimeRangeDTO.t
}.
End ReportOptionsDTO.

Module ScheduleDTO.
Record t : Type := mk {
  Frequency : string;
  TimeZone : string;
  StartDate : time.Time;
  EndDate : time.Time;
  DayOfMonth : string;
  WorkdaysOnly : bool;
  IntervalAmount : Z;
  IntervalFrequency : string
}.

Definition with_StartDate (v : time.Time) (s : t) : t :=
  mk (Frequency s) (TimeZone s) v (EndDate s) (DayOfMonth s) (WorkdaysOnly s)
     (IntervalAmount s) (IntervalFrequency s).

Definition with_EndDate (v : time.Time) (s : t) : t :=
  mk (Frequency s) (TimeZone s) (StartDate s) v (DayOfMonth s) (WorkdaysOnly s)
     (IntervalAmount s) (IntervalFrequency s).

Definition with_DayOfMonth (v : string) (s : t) : t :=
  mk (Frequency s) (TimeZone s) (StartDate s) (EndDate s) v (WorkdaysOnly s)
     (IntervalAmount s) (IntervalFrequency s).

Definition with_WorkdaysOnly (v : bool) (s : t) : t :=
  mk (Frequency s) (TimeZone s) (StartDate s) (EndDate s) (DayOfMonth s) v
     (IntervalAmount s) (IntervalFrequency s).

Definition with_Interval (amount : Z) (unit : string) (s : t) : t :=
  mk (Frequency s) (TimeZone s) (StartDate s) (EndDate s) (DayOfMonth s) (WorkdaysOnly s)
     amount unit.
End ScheduleDTO.

(** [models.CreateOrUpdateConfigCmd], the body of a create or update. *)
Module Cmd.
Record t : Type := mk {
  Name : string;
  EnableDashboardURL : bool;
  EnableCSV : bool;
  Message : string;
  Options : ReportOptionsDTO.t;
  Recipients : string;
  ReplyTo : string;
  ScaleFactor : Z;
  State : string;
  Schedule : ScheduleDTO.t;
  Formats : list string;
  DashboardID : Z;
  TemplateVars : opaque;
  Dashboards : list DashboardDTO.t
}.

Definition with_Schedule (s : ScheduleDTO.t) (r : t) : t :=
  mk (Name r) (EnableDashboardURL r) (EnableCSV r) (Message r) (Options r)
     (Recipients r) (ReplyTo r) (ScaleFactor r) (State r) s (Formats r)
     (DashboardID r) (TemplateVars r) (Dashboards r).

Definition with_Formats (f : list string) (r : t) : t :=
  mk (Name r) (EnableDashboardURL r) (EnableCSV r) (Message r) (Options r)
     (Recipients r) (ReplyTo r) (ScaleFactor r) (State r) (Schedule r) f
     (DashboardID r) (TemplateVars r) (Dashboards r).

Definition with_Dashboards (ds : list DashboardDTO.t) (r : t) : t :=
  mk (Name r) (EnableDashboardURL r) (EnableCSV r) (Message r) (Options r)
     (Recipients r) (ReplyTo r) (ScaleFactor r) (State r) (Schedule r) (Formats r)
     (DashboardID r) (TemplateVars r) ds.

(** The three deprecated slots written when only a numeric id is known. *)
Definition with_deprecated (id : Z) (tr : TimeRangeDTO.t) (vars : opaque) (r : t) : t :=
  mk (Name r) (EnableDashboardURL r) (EnableCSV r) (Message r)
     (ReportOptionsDTO.mk (ReportOptionsDTO.Layout (Options r))
                          (ReportOptionsDTO.Orientation (Options r)) (Some tr))
     (Recipients r) (ReplyTo r) (ScaleFactor r) (State r) (Schedule r) (Formats r)
     id vars (Dashboards r).
End Cmd.

(** [models.ConfigDTO], the entity a read returns. *)
Module ConfigDTO.
Record t : Type := mk {
  ID : Z;
  OrgID : Z;
  Name : string;
  EnableDashboardURL : bool;
  EnableCSV : bool;
  Message : string;
  Options : option ReportOptionsDTO.t;
  Recipients : string;
  ReplyTo : string;
  ScaleFactor : Z;
  State : string;
  Schedule : option ScheduleDTO.t;
  Formats : list string;
  Dashboards : list DashboardDTO.t
}.
End ConfigDTO.

(** The declarative side: the attributes of the resource schema, each
    with the type [d.Get] returns for it.  A block is a list, as the
    schema layer stores it ([schedule.0.frequency] is a field of the
    first element). *)
Module TimeRangeBlock.
Record t : Type := mk { from : string; to : string }.
End TimeRangeBlock.

Module ScheduleBlock.
Record t : Type := mk {
  frequency : string;
  start_time : string;
  end_time : string;
  workdays_only : bool;
  custom_interval : string;
  last_day_of_month : bool;
  timezone : string
}.
(** What [d.Get] yields below a block that is absent. *)
Definition zero : t := mk "" "" "" false "" false "".
End ScheduleBlock.

Module DashboardBlock.
Record t : Type := mk {
  dashboard : list string;   (* the [uid] of each [dashboard] block *)
  time_range : list TimeRangeBlock.t;
  report_variables : string
}.
End DashboardBlock.

Module ResourceData.
Record t : Type := mk {
  Id : string;
  org_id : string;
  name : string;
  dashboard_id : Z;
  dashboard_uid : string;
  recipients : list string;
  reply_to : string;
  message : string;
  include_dashboard_link : bool;
  include_table_csv : bool;
  layout : string;
  orientation : string;
  formats : list string;
  state : string;
  scale_factor : Z;
  time_range : list TimeRangeBlock.t;
  schedule : list ScheduleBlock.t;
  dashboards : list DashboardBlock.t
}.

(** [d.SetId(v)] and [d.Set(<attribute>, v)], one function per attribute the
  resource writes. *)
Definition SetId (v : string) (d : t) : t :=
  mk v (org_id d) (name d) (dashboard_id d) (dashboard_uid d) (recipients d)
     (reply_to d) (message d) (include_dashboard_link d) (include_table_csv d)
     (layout d) (orientation d) (formats d) (state d) (scale_factor d) (time_range d)
     (schedule d) (dashboards d).
Definition Set_org_id (v : string) (d : t) : t :=
  mk (Id d) v (name d) (dashboard_id d) (dashboard_uid d) (recipients d) (reply_to d)
     (message d) (include_dashboard_link d) (include_table_csv d) (layout d)
     (orientation d) (formats d) (state d) (scale_factor d) (time_range d)
     (schedule d) (dashboards d).
Definition Set_name (v : string) (d : t) : t :=
  mk (Id d) (org_id d) v (dashboard_id d) (dashboard_uid d) (recipients d)
     (reply_to d) (message d) (include_dashboard_link d) (include_table_csv d)
     (layout d) (orientation d) (formats d) (state d) (scale_factor d) (time_range d)
     (schedule d) (dashboards d).
Definition Set_dashboard_id (v : Z) (d : t) : t :=
  mk (Id d) (org_id d) (name d) v (dashboard_uid d) (recipients d) (reply_to d)
     (message d) (include_dashboard_link d) (include_table_csv d) (layout d)
     (orientation d) (formats d) (state d) (scale_factor d) (time_range d)
     (schedule d) (dashboards d).
Definition Set_dashboard_uid (v : string) (d : t) : t :=
  mk (Id d) (org_id d) (name d) (dashboard_id d) v (recipients d) (reply_to d)
     (message d) (include_dashboard_link d) (include_table_csv d) (layout d)
     (orientation d) (formats d) (state d) (scale_factor d) (time_range d)
     (schedule d) (dashboards d).
Definition Set_recipients (v : list string) (d : t) : t :=
  mk (Id d) (org_id d) (name d) (dashboard_id d) (dashboard_uid d) v (reply_to d)
     (message d) (include_dashboard_link d) (include_table_csv d) (layout d)
     (orientation d) (formats d) (state d) (scale_factor d) (time_range d)
     (schedule d) (dashboards d).
Definition Set_reply_to (v : string) (d : t) : t :=
  mk (Id d) (org_id d) (name d) (dashboard_id d) (dashboard_uid d) (recipients d) v
     (message d) (include_dashboard_link d) (include_table_csv d) (layout d)
     (orientation d) (formats d) (state d) (scale_factor d) (time_range d)
     (schedule d) (dashboards d).
Definition Set_message (v : string) (d : t) : t :=
  mk (Id d) (org_id d) (name d) (dashboard_id d) (dashboard_uid d) (recipients d)
     (reply_to d) v (include_dashboard_link d) (include_table_csv d) (layout d)
     (orientation d) (formats d) (state d) (scale_factor d) (time_range d)
     (schedule d) (dashboards d).
Definition Set_include_dashboard_link (v : bool) (d : t) : t :=
  mk (Id d) (org_id d) (name d) (dashboard_id d) (dashboard_uid d) (recipients d)
     (reply_to d) (message d) v (include_table_csv d) (layout d) (orientation d)
     (formats d) (state d) (scale_factor d) (time_range d) (schedule d)
     (dashboards d).
Definition Set_include_table_csv (v : bool) (d : t) : t :=
  mk (Id d) (org_id d) (name d) (dashboard_id d) (dashboard_uid d) (recipients d)
     (reply_to d) (message d) (include_dashboard_link d) v (layout d) (orientation d)
     (formats d) (state d) (scale_factor d) (time_range d) (schedule d)
     (dashboards d).
Definition Set_layout (v : string) (d : t) : t :=
  mk (Id d) (org_id d) (name d) (dashboard_id d) (dashboard_uid d) (recipients d)
     (reply_to d) (message d) (include_dashboard_link d) (include_table_csv d) v
     (orientation d) (formats d) (state d) (scale_factor d) (time_range d)
     (schedule d) (dashboards d).
Definition Set_orientation (v : string) (d : t) : t :=
  mk (Id d) (org_id d) (name d) (dashboard_id d) (dashboard_uid d) (recipients d)
     (reply_to d) (message d) (include_dashboard_link d) (include_table_csv d)
     (layout d) v (formats d) (state d) (scale_factor d) (time_range d) (schedule d)
     (dashboards d).
Definition Set_formats (v : list string) (d : t) : t :=
  mk (Id d) (org_id d) (name d) (dashboard_id d) (dashboard_uid d) (recipients d)
     (reply_to d) (message d) (include_dashboard_link d) (include_table_csv d)
     (layout d) (orientation d) v (state d) (scale_factor d) (time_range d)
     (schedule d) (dashboards d).
Definition Set_state (v : string) (d : t) : t :=
  mk (Id d) (org_id d) (name d) (dashboard_id d) (dashboard_uid d) (recipients d)
     (reply_to d) (message d) (include_dashboard_link d) (include_table_csv d)
     (layout d) (orientation d) (formats d) v (scale_factor d) (time_range d)
     (schedule d) (dashboards d).
Definition Set_scale_factor (v : Z) (d : t) : t :=
  mk (Id d) (org_id d) (name d) (dashboard_id d) (dashboard_uid d) (recipients d)
     (reply_to d) (message d) (include_dashboard_link d) (include_table_csv d)
     (layout d) (orientation d) (formats d) (state d) v (time_range d) (schedule d)
     (dashboards d).
Definition Set_time_range (v : list TimeRangeBlock.t) (d : t) : t :=
  mk (Id d) (org_id d) (name d) (dashboard_id d) (dashboard_uid d) (recipients d)
     (reply_to d) (message d) (include_dashboard_link d) (include_table_csv d)
     (layout d) (orientation d) (formats d) (state d) (scale_factor d) v (schedule d)
     (dashboards d).
Definition Set_schedule (v : list ScheduleBlock.t) (d : t) : t :=
  mk (Id d) (org_id d) (name d) (dashboard_id d) (dashboard_uid d) (recipients d)
     (reply_to d) (message d) (include_dashboard_link d) (include_table_csv d)
     (layout d) (orientation d) (formats d) (state d) (scale_factor d) (time_range d)
     v (dashboards d).

(** [d.Get("schedule.0.<field>")]. *)
Definition schedule_0 (d : t) : ScheduleBlock.t := hd ScheduleBlock.zero (schedule d).

(** [d.Get("template_vars")]: the schema declares no such attribute,
    so the value is [nil]. *)
Definition template_vars (_ : t) : opaque := None.
End ResourceData.

Definition reportFrequencyHourly : string := "hourly".
Definition reportFrequencyDaily : string := "daily".
Definition reportFrequencyWeekly : string := "weekly".
Definition reportFrequencyMonthly : string := "monthly".
Definition reportFrequencyCustom : string := "custom".
Definition reportFrequencyOnce : string := "once".
Definition reportFrequencyNever : string := "never".

Definition reportFormatPDF : string := "pdf".

Definition reportFrequencies : list string :=
  [reportFrequencyNever; reportFrequencyOnce; reportFrequencyHourly; reportFrequencyDaily;
   reportFrequencyWeekly; reportFrequencyMonthly; reportFrequencyCustom].

(* ===================================================================== *)
(** * Translation: declarative configuration to wire command *)
(* ===================================================================== *)

(** Go's [(value, error)] results: [inl] is the error. *)
Notation "x <- e ;; k" :=
  (match e with inl err => inl err | inr x => k end)
  (at level 61, e at next level, right associativity, only parsing).
Notation "' pat <- e ;; k" :=
  (match e with inl err => inl err | inr pat => k end)
  (at level 61, pat pattern, e at next level, right associativity, only parsing).

(** Helpers of the provider's [common] package: a set and a list of the
    schema layer as a slice of strings. *)
Module common.
Definition SetToStringSlice (src : list string) : list string := src.
Definition ListToStringSlice (src : list string) : list string := src.
Definition StringSliceToSet (src : list string) : list string := src.
End common.

Definition reportWorkdaysOnlyConfigAllowed (frequency : string) : bool :=
  (frequency =? reportFrequencyHourly)%string
  || (frequency =? reportFrequencyDaily)%string
  || (frequency =? reportFrequencyCustom)%string.

Definition parseErr : error :=
  errorString "custom_interval must be in format `<number> <unit>` where unit is one of `hours`, `days`, `weeks`, `months`".

(** [parseCustomReportInterval], on the string its callers pass. *)
Definition parseCustomReportInterval (v : string) : error + (Z * string) :=
  let split := strings.Split v " " in
  if negb (length split =? 2)%nat then inl parseErr
  else
    match strconv.Atoi (nth 0 split "") with
    | None => inl parseErr
    | Some number =>
        let unit := nth 1 split "" in
        if negb (unit =? "hours")%string && negb (unit =? "days")%string
           && negb (unit =? "weeks")%string && negb (unit =? "months")%string
        then inl parseErr
        else inr (number, unit)
    end.

Definition createReportSchema (d : ResourceData.t) : Cmd.t :=
  {| Cmd.Name := ResourceData.name d;
     Cmd.EnableDashboardURL := ResourceData.include_dashboard_link d;
     Cmd.EnableCSV := ResourceData.include_table_csv d;
     Cmd.Message := ResourceData.message d;
     Cmd.Options :=
       {| ReportOptionsDTO.Layout := ResourceData.layout d;
          ReportOptionsDTO.Orientation := ResourceData.orientation d;
          ReportOptionsDTO.TimeRange := None |};
     Cmd.Recipients := strings.Join (common.ListToStringSlice (ResourceData.recipients d)) ",";
     Cmd.ReplyTo := ResourceData.reply_to d;
     Cmd.ScaleFactor := ResourceData.scale_factor d;
     Cmd.State := ResourceData.state d;
     Cmd.Schedule :=
       {| ScheduleDTO.Frequency := ScheduleBlock.frequency (ResourceData.schedule_0 d);
          ScheduleDTO.TimeZone := ScheduleBlock.timezone (ResourceData.schedule_0 d);
          ScheduleDTO.StartDate := time.zero;
          ScheduleDTO.EndDate := time.zero;
          ScheduleDTO.DayOfMonth := "";
          ScheduleDTO.WorkdaysOnly := false;
          ScheduleDTO.IntervalAmount := 0;
          ScheduleDTO.IntervalFrequency := "" |};
     Cmd.Formats := [];
     Cmd.DashboardID := 0;
     Cmd.TemplateVars := None;
     Cmd.Dashboards := [] |}.

(** [setDeprecatedDashboardValues]: the report it was given, updated, or
    the error. *)
Definition setDeprecatedDashboardValues (report : Cmd.t) (d : ResourceData.t)
  : error + Cmd.t :=
  let id := ResourceData.dashboard_id d in
  let uid := ResourceData.dashboard_uid d in
  let timeRangeDTO :=
    match ResourceData.time_range d with
    | tr :: _ => TimeRangeDTO.mk (TimeRangeBlock.from tr) (TimeRangeBlock.to tr)
    | [] => TimeRangeDTO.empty
    end in
  if (id =? 0) && (uid =? "")%string then
    inl (errorString "dashboard_id or dashboard_uid should be set")
  else if (uid =? "")%string then
    inr (Cmd.with_deprecated id timeRangeDTO (ResourceData.template_vars d) report)
  else
    inr (Cmd.with_Dashboards
           [ {| DashboardDTO.Dashboard := Some (DashboardReportDTO.mk 0 uid);
                DashboardDTO.ReportVariables := ResourceData.template_vars d;
                DashboardDTO.TimeRange := Some timeRangeDTO |} ]
           report).

Section Translation.
Context {RT : Runtime}.

(** [setReportFrequency]: the schedule of [report] filled in from the
    declared schedule, one step after the other as the source does; the
    updated report, or the error of the step that failed.  No step
    writes [report.Schedule.Frequency], which the source reads at every
    test: it is read once here. *)
Definition setReportFrequency (report : Cmd.t) (d : ResourceData.t) : error + Cmd.t :=
  let sb := ResourceData.schedule_0 d in
  let frequency := ScheduleDTO.Frequency (Cmd.Schedule report) in
  let schedule := Cmd.Schedule report in
  schedule <-
    (if negb (frequency =? reportFrequencyNever)%string then
       let startTimeStr := ScheduleBlock.start_time sb in
       if negb (startTimeStr =? "")%string then
         startDate <- time_Parse startTimeStr ;;
         inr (ScheduleDTO.with_StartDate (time.UTC startDate) schedule)
       else inr schedule
     else inr schedule) ;;
  schedule <-
    (if negb (frequency =? reportFrequencyOnce)%string
        && negb (frequency =? reportFrequencyNever)%string then
       let endTimeStr := ScheduleBlock.end_time sb in
       if negb (endTimeStr =? "")%string then
         endDate <- time_Parse endTimeStr ;;
         inr (ScheduleDTO.with_EndDate (time.UTC endDate) schedule)
       else inr schedule
     else inr schedule) ;;
  let schedule :=
    if (frequency =? reportFrequencyMonthly)%string then
      if ScheduleBlock.last_day_of_month sb
      then ScheduleDTO.with_DayOfMonth "last" schedule
      else schedule
    else schedule in
  let schedule :=
    if reportWorkdaysOnlyConfigAllowed frequency
    then ScheduleDTO.with_WorkdaysOnly (ScheduleBlock.workdays_only sb) schedule
    else schedule in
  schedule <-
    (if (frequency =? reportFrequencyCustom)%string then
       let customInterval := ScheduleBlock.custom_interval sb in
       '(amount, unit) <- parseCustomReportInterval customInterval ;;
       inr (ScheduleDTO.with_Interval amount unit schedule)
     else inr schedule) ;;
  inr (Cmd.with_Schedule schedule report).

(** [schemaToReportParams]: the wire command of a declarative
    configuration.  With a non-empty [dashboards] list the source does
    nothing in the first branch: its one statement,
    [report.Dashboards = dashboards], is commented out. *)
Definition schemaToReportParams (d : ResourceData.t) : error + Cmd.t :=
  let report := createReportSchema d in
  let dashboards := ResourceData.dashboards d in
  report <-
    (if (0 <? length dashboards)%nat then inr report
     else setDeprecatedDashboardValues report d) ;;
  let formats := common.SetToStringSlice (ResourceData.formats d) in
  let report :=
    if (length formats =? 0)%nat then Cmd.with_Formats [reportFormatPDF] report
    else report in
  setReportFrequency report d.

(** The instant a string stands for in a [DiffSuppressFunc]: the error of
    [time.Parse] is dropped there, and the [Time] it returns with an
    error is the zero [Time]. *)
Definition parsedOrZero (value : string) : time.Time :=
  match time_Parse value with
  | inr t => t
  | inl _ => time.zero
  end.

(** The [DiffSuppressFunc] of [schedule.start_time]; [now] is
    [time.Now()]. *)
Definition start_time_DiffSuppressFunc (now : time.Time) (old new : string) : bool :=
  let oldParsed := parsedOrZero old in
  let newParsed := parsedOrZero new in
  if (new =? "")%string && time.Before oldParsed now then true
  else time.Equal oldParsed newParsed.

(** The [DiffSuppressFunc] of [schedule.end_time]. *)
Definition end_time_DiffSuppressFunc (old new : string) : bool :=
  let oldParsed := parsedOrZero old in
  let newParsed := parsedOrZero new in
  time.Equal oldParsed newParsed.

End Translation.

(** The [DiffSuppressFunc] of [schedule.workdays_only]. *)
Definition workdays_only_DiffSuppressFunc (d : ResourceData.t) : bool :=
  negb (reportWorkdaysOnlyConfigAllowed (ScheduleBlock.frequency (ResourceData.schedule_0 d))).

(* ===================================================================== *)
(** * The lifecycle operations *)
(* ===================================================================== *)

(** A request the API client sends; a body of [None] is a [nil] body. *)
Inductive Request : Type :=
| CreateReportRequest (body : option Cmd.t)
| GetReportRequest (id : Z)
| UpdateReportRequest (id : Z) (body : option Cmd.t)
| DeleteReportRequest (id : Z).

(** The answers of the remote service through [client.Reports]:
    [res.Payload.ID] of a create, the payload of a get. *)
Record Client : Type := {
  CreateReport_response : option Cmd.t -> error + Z;
  GetReport_response : Z -> error + ConfigDTO.t;
  UpdateReport_response : Z -> option Cmd.t -> error + unit;
  DeleteReport_response : Z -> error + unit
}.

(** The provider around the resource ([meta]): its API client, the
    organisation [OAPIClientFromNewOrgResource] returns, the identifier
    [OAPIClientFromExistingOrgResource] cuts out of the resource id, and
    [MakeOrgResourceID]. *)
Record Meta : Type := {
  Reports : Client;
  NewOrgID : ResourceData.t -> Z;
  ExistingID : string -> string;
  MakeOrgResourceID : Z -> Z -> string
}.

(** [diag.Diagnostics]: empty is success. *)
Inductive Diagnostic : Type :=
| FromErr (err : error)
| UpdateErrorf (report : Cmd.t) (err : error)
    (* "error updating the following report:\n%s\n%v" *)
| ReadErrorf (resourceType id : string) (err : error)
| WarnMissing (resourceType id : string).

Definition Diagnostics : Type := list Diagnostic.

(** What an operation works on: the resource data [d], which it updates
    in place, and the requests sent so far, oldest first. *)
Record World : Type := { data : ResourceData.t; sent : list Request }.

(** An operation returns, or the Go runtime panics. *)
Inductive Outcome (A : Type) : Type :=
| Returned (a : A) (w : World)
| Panicked (why : string) (w : World).
Arguments Returned {A} a w.
Arguments Panicked {A} why w.

Definition M (A : Type) : Type := World -> Outcome A.

Definition ret {A} (a : A) : M A := fun w => Returned a w.

Definition bind {A B} (m : M A) (k : A -> M B) : M B :=
  fun w =>
    match m w with
    | Returned a w' => k a w'
    | Panicked why w' => Panicked why w'
    end.

Notation "x <-- m ;; k" := (bind m (fun x => k))
  (at level 61, m at next level, right associativity, only parsing).
Notation "' pat <-- m ;; k" := (bind m (fun x => match x with pat => k end))
  (at level 61, pat pattern, m at next level, right associativity, only parsing).
Notation "m ;;; k" := (bind m (fun _ => k))
  (at level 61, right associativity, only parsing).

Definition panic {A} (why : string) : M A := fun w => Panicked why w.

Definition getData : M ResourceData.t := fun w => Returned (data w) w.

(** A [d.Set] or [d.SetId]. *)
Definition modify (f : ResourceData.t -> ResourceData.t) : M unit :=
  fun w => Returned tt {| data := f (data w); sent := sent w |}.

Definition send (req : Request) : M unit :=
  fun w => Returned tt {| data := data w; sent := sent w ++ [req] |}.

(** [xs[0]]. *)
Definition index0 {A} (xs : list A) : M A :=
  match xs with
  | x :: _ => ret x
  | [] => panic "runtime error: index out of range [0] with length 0"
  end.

(** A field access through a pointer. *)
Definition deref {A} (p : option A) : M A :=
  match p with
  | Some x => ret x
  | None => panic "runtime error: invalid memory address or nil pointer dereference"
  end.

Definition errOf {A} (r : error + A) : option error :=
  match r with inl err => Some err | inr _ => None end.

Definition valueOf {A} (r : error + A) : option A :=
  match r with inl _ => None | inr v => Some v end.

(** [strconv.ParseInt(s, 10, 64)]. *)
Definition ParseInt (s : string) : error + Z :=
  match strconv.Atoi s with
  | Some n => inr n
  | None => inl (NumError "ParseInt" s)
  end.

(** Whether an error of the API client says "not found" (HTTP 404). *)
Definition IsNotFoundError (err : error) : bool :=
  match err with
  | APIError code _ => code =? 404
  | _ => false
  end.

(** Modelled from the spec: [common.CheckReadError], a helper of the
    provider whose source is not among the files.  With no error the
    caller goes on; a remote failure is surfaced to the caller; "not
    found" is no failure: the resource is dropped from the state (its id
    is cleared) with a warning. *)
Definition CheckReadError (resourceType : string) (err : option error)
  : M (Diagnostics * bool) :=
  match err with
  | None => ret ([], false)
  | Some e =>
      d <-- getData ;;
      if IsNotFoundError e then
        modify (ResourceData.SetId "") ;;;
        ret ([WarnMissing resourceType (ResourceData.Id d)], true)
      else ret ([ReadErrorf resourceType (ResourceData.Id d) e], true)
  end.

(** The [map[string]interface{}] that [ReadReport] builds for the
    schedule: three keys are always there, four only when set. *)
Module ScheduleMap.
Record t : Type := mk {
  timezone : string;
  frequency : string;
  workdays_only : bool;
  custom_interval : option string;
  start_time : option time.Time;
  end_time : option time.Time;
  last_day_of_month : option bool
}.
End ScheduleMap.

(** The schedule block the schema layer makes of the map handed to
    [d.Set("schedule", []interface{}{schedule})].  The schema declares
    [start_time] and [end_time] as strings: a [time.Time] under one of
    them is refused, with an error, and there is no block.  A key the
    map lacks reads back as the zero value. *)
Definition scheduleBlockOf (m : ScheduleMap.t) : error + ScheduleBlock.t :=
  match ScheduleMap.start_time m, ScheduleMap.end_time m with
  | None, None =>
      inr {| ScheduleBlock.frequency := ScheduleMap.frequency m;
             ScheduleBlock.start_time := "";
             ScheduleBlock.end_time := "";
             ScheduleBlock.workdays_only := ScheduleMap.workdays_only m;
             ScheduleBlock.custom_interval :=
               match ScheduleMap.custom_interval m with Some s => s | None => "" end;
             ScheduleBlock.last_day_of_month :=
               match ScheduleMap.last_day_of_month m with Some b => b | None => false end;
             ScheduleBlock.timezone := ScheduleMap.timezone m |}
  | _, _ =>
      inl (errorString "schedule: expected type 'string', got unconvertible type 'time.Time'")
  end.

(** [d.Set("schedule", []interface{}{schedule})]: the block is stored,
    or the error is returned and the schedule of [d] stays as it was. *)
Definition Set_schedule_map (m : ScheduleMap.t) : M (option error) :=
  match scheduleBlockOf m with
  | inr block => modify (ResourceData.Set_schedule [block]) ;;; ret None
  | inl err => ret (Some err)
  end.

Section Lifecycle.
Context {RT : Runtime}.

(** The schedule part of [ReadReport] (from [schedule := map...] to the
    last [if]): the map, or the error of a date that does not parse. *)
Definition readSchedule (s : ScheduleDTO.t) : error + ScheduleMap.t :=
  let custom_interval :=
    if negb (ScheduleDTO.IntervalAmount s =? 0)
       && negb (ScheduleDTO.IntervalFrequency s =? "")%string
    then Some (fmt.Sprintf_d_s (ScheduleDTO.IntervalAmount s) (ScheduleDTO.IntervalFrequency s))
    else None in
  start_time <-
    (if negb (DateTime_String (ScheduleDTO.StartDate s) =? "")%string then
       t <- time_Parse (DateTime_String (ScheduleDTO.StartDate s)) ;;
       inr (Some (time.UTC t))
     else inr None) ;;
  end_time <-
    (if negb (DateTime_String (ScheduleDTO.EndDate s) =? "")%string then
       t <- time_Parse (DateTime_String (ScheduleDTO.EndDate s)) ;;
       inr (Some (time.UTC t))
     else inr None) ;;
  let last_day_of_month :=
    if (ScheduleDTO.DayOfMonth s =? "last")%string then Some true else None in
  inr {| ScheduleMap.timezone := ScheduleDTO.TimeZone s;
         ScheduleMap.frequency := ScheduleDTO.Frequency s;
         ScheduleMap.workdays_only := ScheduleDTO.WorkdaysOnly s;
         ScheduleMap.custom_interval := custom_interval;
         ScheduleMap.start_time := start_time;
         ScheduleMap.end_time := end_time;
         ScheduleMap.last_day_of_month := last_day_of_month |}.

Definition ReadReport (meta : Meta) : M Diagnostics :=
  d <-- getData ;;
  let idStr := ExistingID meta (ResourceData.Id d) in
  match ParseInt idStr with
  | inl err => ret [FromErr err]
  | inr id =>
      send (GetReportRequest id) ;;;
      let r := GetReport_response (Reports meta) id in
      '(diags, shouldReturn) <-- CheckReadError "report" (errOf r) ;;
      if shouldReturn : bool then ret diags
      else
        payload <-- deref (valueOf r) ;;
        modify (ResourceData.SetId (MakeOrgResourceID meta (ConfigDTO.OrgID payload) id)) ;;;
        dashboards0 <-- index0 (ConfigDTO.Dashboards payload) ;;
        dashboard <-- deref (DashboardDTO.Dashboard dashboards0) ;;
        modify (ResourceData.Set_dashboard_id (DashboardReportDTO.ID dashboard)) ;;;
        modify (ResourceData.Set_dashboard_uid (DashboardReportDTO.UID dashboard)) ;;;
        modify (ResourceData.Set_name (ConfigDTO.Name payload)) ;;;
        modify (ResourceData.Set_recipients (strings.Split (ConfigDTO.Recipients payload) ",")) ;;;
        modify (ResourceData.Set_reply_to (ConfigDTO.ReplyTo payload)) ;;;
        modify (ResourceData.Set_message (ConfigDTO.Message payload)) ;;;
        modify (ResourceData.Set_include_dashboard_link (ConfigDTO.EnableDashboardURL payload)) ;;;
        modify (ResourceData.Set_include_table_csv (ConfigDTO.EnableCSV payload)) ;;;
        options <-- deref (ConfigDTO.Options payload) ;;
        modify (ResourceData.Set_layout (ReportOptionsDTO.Layout options)) ;;;
        modify (ResourceData.Set_orientation (ReportOptionsDTO.Orientation options)) ;;;
        modify (ResourceData.Set_org_id (strconv.FormatInt (ConfigDTO.OrgID payload))) ;;;
        modify (ResourceData.Set_state (ConfigDTO.State payload)) ;;;
        modify (ResourceData.Set_scale_factor (ConfigDTO.ScaleFactor payload)) ;;;
        d <-- getData ;;
        (if (0 <? length (ResourceData.formats d))%nat then
           modify (ResourceData.Set_formats (common.StringSliceToSet (ConfigDTO.Formats payload)))
         else ret tt) ;;;
        timeRange <-- deref (DashboardDTO.TimeRange dashboards0) ;;
        (if negb (TimeRangeDTO.From timeRange =? "")%string then
           modify (ResourceData.Set_time_range
                     [TimeRangeBlock.mk (TimeRangeDTO.From timeRange) (TimeRangeDTO.To timeRange)])
         else ret tt) ;;;
        schedule <-- deref (ConfigDTO.Schedule payload) ;;
        match readSchedule schedule with
        | inl err => ret [FromErr err]
        | inr schedule =>
            (* the error of this [d.Set] is not looked at *)
            Set_schedule_map schedule ;;;
            ret []
        end
  end.

(** [CreateReport].  The diagnostics built from the error of
    [schemaToReportParams] are not returned: the source has
    [diag.FromErr(err)] there, without [return], and goes on with the
    [nil] request. *)
Definition CreateReport (meta : Meta) : M Diagnostics :=
  d <-- getData ;;
  let orgID := NewOrgID meta d in
  let result := schemaToReportParams d in
  let req := valueOf result in
  let _ := match errOf result with Some err => [FromErr err] | None => [] end in
  send (CreateReportRequest req) ;;;
  match CreateReport_response (Reports meta) req with
  | inl err => ret [FromErr err]
  | inr payloadID =>
      modify (ResourceData.SetId (MakeOrgResourceID meta orgID payloadID)) ;;;
      ReadReport meta
  end.

Definition UpdateReport (meta : Meta) : M Diagnostics :=
  d <-- getData ;;
  let idStr := ExistingID meta (ResourceData.Id d) in
  match ParseInt idStr with
  | inl err => ret [FromErr err]
  | inr id =>
      match schemaToReportParams d with
      | inl err => ret [FromErr err]
      | inr report =>
          send (UpdateReportRequest id (Some report)) ;;;
          match UpdateReport_response (Reports meta) id (Some report) with
          | inl err => ret [UpdateErrorf report err]
          | inr _ => ReadReport meta
          end
      end
  end.

Definition DeleteReport (meta : Meta) : M Diagnostics :=
  d <-- getData ;;
  let idStr := ExistingID meta (ResourceData.Id d) in
  match ParseInt idStr with
  | inl err => ret [FromErr err]
  | inr id =>
      send (DeleteReportRequest id) ;;;
      '(diag, _) <-- CheckReadError "report" (errOf (DeleteReport_response (Reports meta) id)) ;;
      ret diag
  end.

End Lifecycle.

(* ===================================================================== *)
(** * A concrete runtime, and the objects of the examples *)
(* ===================================================================== *)

(** The runtime of the closed examples below: [time.Parse] on the
    RFC 3339 layout, and the millisecond layout of [strfmt.DateTime]. *)
Definition Parse_or_error (value : string) : error + time.Time :=
  match time.Parse_RFC3339 value with
  | Some t => inr t
  | None => inl (ParseError value)
  end.

Definition Parse_empty (t : time.Time) : Parse_or_error "" <> inr t :=
  fun H : inl (ParseError "") = inr t =>
    match H in _ = r return match r with inl _ => True | inr _ => False end with
    | eq_refl => I
    end.

Definition goRuntime : Runtime :=
  {| time_Parse := Parse_or_error;
     DateTime_String := time.FormatMillis;
     time_Parse_empty := Parse_empty |}.

(** Resource ids of the form [<org>:<id>]. *)
Definition orgMeta (client : Client) : Meta :=
  {| Reports := client;
     NewOrgID := fun _ => 1;
     ExistingID := fun id => last (strings.Split id ":") "";
     MakeOrgResourceID := fmt.Sprintf_d_d |}.

(** The report of the repository's example with several dashboards,
    which is the scenario of the specification: two dashboards in the
    list form, monthly on the last day, formats [pdf]. *)
Definition scenario : ResourceData.t :=
  {| ResourceData.Id := "";
     ResourceData.org_id := "";
     ResourceData.name := "multiple dashboards report";
     ResourceData.dashboard_id := 0;
     ResourceData.dashboard_uid := "";
     ResourceData.recipients := ["some@email.com"];
     ResourceData.reply_to := "";
     ResourceData.message := "";
     ResourceData.include_dashboard_link := true;
     ResourceData.include_table_csv := false;
     ResourceData.layout := "grid";
     ResourceData.orientation := "portrait";
     ResourceData.formats := ["pdf"];
     ResourceData.state := "scheduled";
     ResourceData.scale_factor := 2;
     ResourceData.time_range := [];
     ResourceData.schedule :=
       [ {| ScheduleBlock.frequency := "monthly";
            ScheduleBlock.start_time := "";
            ScheduleBlock.end_time := "";
            ScheduleBlock.workdays_only := false;
            ScheduleBlock.custom_interval := "";
            ScheduleBlock.last_day_of_month := true;
            ScheduleBlock.timezone := "America/Los_Angeles" |} ];
     ResourceData.dashboards :=
       [ {| DashboardBlock.dashboard := ["report"];
            DashboardBlock.time_range := [TimeRangeBlock.mk "now-1h" "now"];
            DashboardBlock.report_variables := "" |};
         {| DashboardBlock.dashboard := ["report"];
            DashboardBlock.time_range := [];
            DashboardBlock.report_variables := "" |} ] |}.

(** A report in the legacy form, by dashboard uid, with the given
    schedule and formats. *)
Definition legacyReport (formats : list string) (schedule : ScheduleBlock.t)
  : ResourceData.t :=
  {| ResourceData.Id := "";
     ResourceData.org_id := "";
     ResourceData.name := "weekly numbers";
     ResourceData.dashboard_id := 0;
     ResourceData.dashboard_uid := "report";
     ResourceData.recipients := ["some@email.com"; "other@email.com"];
     ResourceData.reply_to := "";
     ResourceData.message := "";
     ResourceData.include_dashboard_link := true;
     ResourceData.include_table_csv := false;
     ResourceData.layout := "grid";
     ResourceData.orientation := "landscape";
     ResourceData.formats := formats;
     ResourceData.state := "scheduled";
     ResourceData.scale_factor := 2;
     ResourceData.time_range := [];
     ResourceData.schedule := [schedule];
     ResourceData.dashboards := [] |}.

(** A report that names no dashboard at all. *)
Definition noDashboard : ResourceData.t :=
  ResourceData.mk "" "" "nothing to send" 0 "" ["some@email.com"] "" "" true false
    "grid" "landscape" [] "scheduled" 2 []
    [ScheduleBlock.mk "daily" "" "" false "" false "GMT"] [].

(** The bindings the specification asks for in the list form (its
    sections 4.4 and 6): one wire entry per element of [dashboards], in
    list order, with the uid, the time range when the element has one,
    and the report variables. *)
Definition spec_bindings (d : ResourceData.t) : list DashboardDTO.t :=
  map (fun b =>
         {| DashboardDTO.Dashboard :=
              Some (DashboardReportDTO.mk 0 (hd "" (DashboardBlock.dashboard b)));
            DashboardDTO.ReportVariables :=
              if (DashboardBlock.report_variables b =? "")%string then None
              else Some (DashboardBlock.report_variables b);
            DashboardDTO.TimeRange :=
              match DashboardBlock.time_range b with
              | tr :: _ => Some (TimeRangeDTO.mk (TimeRangeBlock.from tr) (TimeRangeBlock.to tr))
              | [] => None
              end |})
      (ResourceData.dashboards d).

(** The command of a configuration under the concrete runtime ([None]
    when the translation fails). *)
Definition commandOf (d : ResourceData.t) : option Cmd.t :=
  valueOf (schemaToReportParams (RT := goRuntime) d).

Definition dailySchedule : ScheduleBlock.t :=
  ScheduleBlock.mk "daily" "2024-03-01T08:00:00+01:00" "" true "" false "GMT".

(** Once, with an end time declared. *)
Definition onceSchedule : ScheduleBlock.t :=
  ScheduleBlock.mk "once" "" "2030-01-01T00:00:00Z" false "" false "GMT".

Definition monthlySchedule : ScheduleBlock.t :=
  ScheduleBlock.mk "monthly" "" "" true "" true "GMT".

Definition customSchedule : ScheduleBlock.t :=
  ScheduleBlock.mk "custom" "" "" false "3 days" false "GMT".

(** The requests an operation has sent when it ends, either way. *)
Definition requests {A} (o : Outcome A) : list Request :=
  match o with
  | Returned _ w => sent w
  | Panicked _ w => sent w
  end.

(** A report entity as the service returns it: one dashboard, monthly on
    the last day. *)
Definition storedReport (dashboards : list DashboardDTO.t) (dayOfMonth : string)
  : ConfigDTO.t :=
  {| ConfigDTO.ID := 7;
     ConfigDTO.OrgID := 1;
     ConfigDTO.Name := "weekly numbers";
     ConfigDTO.EnableDashboardURL := true;
     ConfigDTO.EnableCSV := false;
     ConfigDTO.Message := "";
     ConfigDTO.Options := Some (ReportOptionsDTO.mk "grid" "landscape" None);
     ConfigDTO.Recipients := "some@email.com,other@email.com";
     ConfigDTO.ReplyTo := "";
     ConfigDTO.ScaleFactor := 2;
     ConfigDTO.State := "scheduled";
     ConfigDTO.Schedule :=
       Some {| ScheduleDTO.Frequency := "monthly";
               ScheduleDTO.TimeZone := "GMT";
               ScheduleDTO.StartDate := time.Date 2024 3 1 7 0 0 0;
               ScheduleDTO.EndDate := time.zero;
               ScheduleDTO.DayOfMonth := dayOfMonth;
               ScheduleDTO.WorkdaysOnly := false;
               ScheduleDTO.IntervalAmount := 0;
               ScheduleDTO.IntervalFrequency := "" |};
     ConfigDTO.Formats := ["pdf"];
     ConfigDTO.Dashboards := dashboards |}.

(** A wire schedule with a custom interval of three days. *)
Definition customWire : ScheduleDTO.t :=
  {| ScheduleDTO.Frequency := "custom";
     ScheduleDTO.TimeZone := "GMT";
     ScheduleDTO.StartDate := time.Date 2024 3 1 7 0 0 0;
     ScheduleDTO.EndDate := time.zero;
     ScheduleDTO.DayOfMonth := "";
     ScheduleDTO.WorkdaysOnly := false;
     ScheduleDTO.IntervalAmount := 3;
     ScheduleDTO.IntervalFrequency := "days" |}.

Definition oneDashboard : list DashboardDTO.t :=
  [ DashboardDTO.mk (Some (DashboardReportDTO.mk 12 "report")) None
      (Some (TimeRangeDTO.mk "now-1h" "now")) ].

(** A service that stores what it is sent under the id 7 and returns
    [stored] on a read; it refuses a request without a body. *)
Definition service (stored : ConfigDTO.t) : Client :=
  {| CreateReport_response := fun body =>
       match body with
       | Some _ => inr 7
       | None => inl (APIError 400 "bad request data")
       end;
     GetReport_response := fun _ => inr stored;
     UpdateReport_response := fun _ body =>
       match body with
       | Some _ => inr tt
       | None => inl (APIError 400 "bad request data")
       end;
     DeleteReport_response := fun _ => inr tt |}.

(** The state after a create: the configuration, under the id [1:7]. *)
Definition created (d : ResourceData.t) : World :=
  {| data := ResourceData.SetId "1:7" d; sent := [] |}.

(* ===================================================================== *)
(** * The interval grammar, as a specification *)
(* ===================================================================== *)

Definition intervalUnits : list string := ["hours"; "days"; "weeks"; "months"].

(** A string of decimal digits. *)
Fixpoint allDigits (s : string) : bool :=
  match s with
  | EmptyString => true
  | String c rest => time.isDigit c && allDigits rest
  end.

(** A canonical decimal numeral: digits, at least one, and no leading
    zero unless the numeral is ["0"]. *)
Definition canonicalNumeral (s : string) : bool :=
  match s with
  | EmptyString => false
  | String c rest => allDigits s && (negb (Ascii.eqb c "0") || String.eqb rest "")
  end.

(** What [strconv.Atoi] accepts as the integer [n]: an optional sign,
    then digits (at least one) whose value, with the sign, is within the
    range of [int]. *)
Definition goInteger (tok : string) (n : Z) : Prop :=
  exists sign ds un,
    tok = (sign ++ ds)%string
    /\ In sign [""; "+"; "-"]
    /\ ds <> ""
    /\ strconv.parseDigits 0 ds = Some un
    /\ n = (if String.eqb sign "-" then - un else un)
    /\ strconv.MinInt <= n <= strconv.MaxInt.

(** The strings [parseCustomReportInterval] accepts, with the amount and
    unit they stand for: an integer as above, one space, one of the four
    units. *)
Definition acceptedInterval (s : string) (n : Z) (unit : string) : Prop :=
  exists tok,
    s = (tok ++ " " ++ unit)%string /\ goInteger tok n /\ In unit intervalUnits.

(* ===================================================================== *)
(** * The schedule fields a frequency is eligible for *)
(* ===================================================================== *)

(** A declared schedule with every field that [setReportFrequency] does
    not read for its frequency put to the zero value: the start time
    with [never], the end time with [once] and [never], the workdays
    flag unless [reportWorkdaysOnlyConfigAllowed], the custom interval
    unless [custom], the last-day flag unless [monthly]. *)
Definition eligibleSchedule (sb : ScheduleBlock.t) : ScheduleBlock.t :=
  let frequency := ScheduleBlock.frequency sb in
  {| ScheduleBlock.frequency := frequency;
     ScheduleBlock.start_time :=
       if (frequency =? reportFrequencyNever)%string then ""
       else ScheduleBlock.start_time sb;
     ScheduleBlock.end_time :=
       if (frequency =? reportFrequencyOnce)%string
          || (frequency =? reportFrequencyNever)%string then ""
       else ScheduleBlock.end_time sb;
     ScheduleBlock.workdays_only :=
       reportWorkdaysOnlyConfigAllowed frequency && ScheduleBlock.workdays_only sb;
     ScheduleBlock.custom_interval :=
       if (frequency =? reportFrequencyCustom)%string
       then ScheduleBlock.custom_interval sb else "";
     ScheduleBlock.last_day_of_month :=
       (frequency =? reportFrequencyMonthly)%string && ScheduleBlock.last_day_of_month sb;
     ScheduleBlock.timezone := ScheduleBlock.timezone sb |}.

(** The configuration [d] with another value declared for
    [schedule.0.workdays_only]. *)
Definition with_workdays_only (flag : bool) (d : ResourceData.t) : ResourceData.t :=
  let sb := ResourceData.schedule_0 d in
  ResourceData.Set_schedule
    [ ScheduleBlock.mk (ScheduleBlock.frequency sb) (ScheduleBlock.start_time sb)
        (ScheduleBlock.end_time sb) flag (ScheduleBlock.custom_interval sb)
        (ScheduleBlock.last_day_of_month sb) (ScheduleBlock.timezone sb) ]
    d.

(** The parts of the entity a read goes through: a zeroth dashboard
    entry with its two pointers set, options, and a schedule whose dates
    can be read. *)
Definition readable {RT : Runtime} (payload : ConfigDTO.t) : Prop :=
  exists dashboards0 rest dashboard timeRange options schedule m,
    ConfigDTO.Dashboards payload = dashboards0 :: rest
    /\ DashboardDTO.Dashboard dashboards0 = Some dashboard
    /\ DashboardDTO.TimeRange dashboards0 = Some timeRange
    /\ ConfigDTO.Options payload = Some options
    /\ ConfigDTO.Schedule payload = Some schedule
    /\ readSchedule schedule = inr m.

(** The entry a service holds when it stores the binding of
    [rangedReport] below as it was sent. *)
Definition rangedBinding : list DashboardDTO.t :=
  [ DashboardDTO.mk (Some (DashboardReportDTO.mk 0 "report")) None
      (Some (TimeRangeDTO.mk "now-1h" "now")) ].

(** A legacy report by uid with a time range declared. *)
Definition rangedReport : ResourceData.t :=
  ResourceData.mk "1:7" "" "ranged" 0 "report" ["some@email.com"] "" "" true false
    "grid" "landscape" [] "scheduled" 2 [TimeRangeBlock.mk "now-1h" "now"]
    [ScheduleBlock.mk "weekly" "" "" true "7 days" true "GMT"] [].

(** The command of a configuration under the concrete runtime, for a
    configuration that translates. *)
Definition builtCommand (d : ResourceData.t) : Cmd.t :=
  match commandOf d with
  | Some report => report
  | None => createReportSchema d
  end.

(** The entity of a service that stores a command as it was sent, under
    the id 7 of the organisation 1. *)
Definition echoOf (report : Cmd.t) : ConfigDTO.t :=
  {| ConfigDTO.ID := 7;
     ConfigDTO.OrgID := 1;
     ConfigDTO.Name := Cmd.Name report;
     ConfigDTO.EnableDashboardURL := Cmd.EnableDashboardURL report;
     ConfigDTO.EnableCSV := Cmd.EnableCSV report;
     ConfigDTO.Message := Cmd.Message report;
     ConfigDTO.Options := Some (Cmd.Options report);
     ConfigDTO.Recipients := Cmd.Recipients report;
     ConfigDTO.ReplyTo := Cmd.ReplyTo report;
     ConfigDTO.ScaleFactor := Cmd.ScaleFactor report;
     ConfigDTO.State := Cmd.State report;
     ConfigDTO.Schedule := Some (Cmd.Schedule report);
     ConfigDTO.Formats := Cmd.Formats report;
     ConfigDTO.Dashboards := Cmd.Dashboards report |}.

(** An entity without recipients, whose zeroth entry has an empty time
    range. *)
Definition blankReport : ConfigDTO.t :=
  {| ConfigDTO.ID := 7;
     ConfigDTO.OrgID := 1;
     ConfigDTO.Name := "ranged";
     ConfigDTO.EnableDashboardURL := true;
     ConfigDTO.EnableCSV := false;
     ConfigDTO.Message := "";
     ConfigDTO.Options := Some (ReportOptionsDTO.mk "grid" "landscape" None);
     ConfigDTO.Recipients := "";
     ConfigDTO.ReplyTo := "";
     ConfigDTO.ScaleFactor := 2;
     ConfigDTO.State := "scheduled";
     ConfigDTO.Schedule := Some customWire;
     ConfigDTO.Formats := [];
     ConfigDTO.Dashboards :=
       [ DashboardDTO.mk (Some (DashboardReportDTO.mk 0 "report")) None
           (Some TimeRangeDTO.empty) ] |}.

(** A schedule whose start time is no RFC 3339 time. *)
Definition badStartSchedule : ScheduleBlock.t :=
  ScheduleBlock.mk "daily" "tomorrow" "" false "" false "GMT".

(* ===================================================================== *)
(** * The library functions on examples *)
(* ===================================================================== *)

Example Split_ex : strings.Split "3 days" " " = ["3"; "days"].
Proof. reflexivity. Qed.
Example Split_ex2 : strings.Split "a  b" " " = ["a"; ""; "b"].
Proof. reflexivity. Qed.
Example Atoi_ex : strconv.Atoi "007" = Some 7 /\ strconv.Atoi "-3" = Some (-3)
   /\ strconv.Atoi "9223372036854775808" = None /\ strconv.Atoi "+" = None.
Proof. repeat split; vm_compute; reflexivity. Qed.
Example FormatInt_ex : strconv.FormatInt 1203 = "1203" /\ strconv.FormatInt (-45) = "-45".
Proof. split; vm_compute; reflexivity. Qed.

Example Parse_RFC3339_exs :
  time.Parse_RFC3339 "0001-01-01T00:00:00Z" = Some time.zero
  /\ time.Parse_RFC3339 "" = None
  /\ time.Parse_RFC3339 "2024-02-29T12:00:00+02:00" = Some (time.mkTime 63844797600000000000 7200)
  /\ time.Parse_RFC3339 "2023-02-29T12:00:00Z" = None
  /\ time.Parse_RFC3339 "2024-01-01T00:00:00.5Z" = Some (time.mkTime 63839664000500000000 0).
Proof. repeat split; vm_compute; reflexivity. Qed.

(** [time.Parse] is not strict about RFC 3339: the hour may have one
    digit, a comma may stand before the fraction, the offset may be of
    24 hours; the month has two digits, the [T] is a capital, nothing
    follows the zone. *)
Example Parse_RFC3339_lenient :
  time.Parse_RFC3339 "2024-01-01T1:00:00Z" = Some (time.mkTime 63839667600000000000 0)
  /\ time.Parse_RFC3339 "2024-01-01T00:00:00,5Z" = Some (time.mkTime 63839664000500000000 0)
  /\ time.Parse_RFC3339 "2024-01-01T00:00:00+24:00"
     = Some (time.mkTime 63839577600000000000 86400)
  /\ time.Parse_RFC3339 "2024-01-01T00:00:00+25:00" = None
  /\ time.Parse_RFC3339 "2024-1-01T00:00:00Z" = None
  /\ time.Parse_RFC3339 "2024-01-01t00:00:00Z" = None
  /\ time.Parse_RFC3339 "2024-01-01T24:00:00Z" = None
  /\ time.Parse_RFC3339 "2024-01-01T00:00:00Zx" = None.
Proof. repeat split; vm_compute; reflexivity. Qed.

Example FormatMillis_exs :
  time.FormatMillis time.zero = "0001-01-01T00:00:00.000Z"
  /\ time.FormatMillis (time.mkTime 63844797600000000000 7200) = "2024-02-29T12:00:00.000+02:00"
  /\ time.FormatMillis (time.mkTime 63839664000500000000 0) = "2024-01-01T00:00:00.500Z".
Proof. repeat split; vm_compute; reflexivity. Qed.

(* ===================================================================== *)
(** * The interval grammar *)
(* ===================================================================== *)

Section StringLemmas.

Lemma append_assoc' (a b c : string) : ((a ++ b) ++ c = a ++ (b ++ c))%string.
Proof. induction a as [|x a IH]; simpl; [reflexivity | now rewrite IH]. Qed.

Lemma append_nil_r (a : string) : (a ++ "")%string = a.
Proof. induction a as [|x a IH]; simpl; [reflexivity | now rewrite IH]. Qed.

Lemma Split_nonempty (s : string) (sep : ascii) : strings.Split s sep <> [].
Proof.
  induction s as [|c s IH]; simpl; [discriminate|].
  destruct (Ascii.eqb c sep); [discriminate|].
  destruct (strings.Split s sep); [contradiction | discriminate].
Qed.

Lemma Split_lacks (s : string) (sep : ascii) :
  strings.lacks sep s = true -> strings.Split s sep = [s].
Proof.
  induction s as [|c s IH]; simpl; [reflexivity|].
  intros H. apply andb_prop in H as [Hc Hs].
  apply negb_true_iff in Hc. rewrite Hc, (IH Hs). reflexivity.
Qed.

Lemma Split_app (a b : string) (sep : ascii) :
  strings.lacks sep a = true ->
  strings.Split (a ++ String sep b) sep = a :: strings.Split b sep.
Proof.
  induction a as [|c a IH]; simpl.
  - intros _. now rewrite Ascii.eqb_refl.
  - intros H. apply andb_prop in H as [Hc Ha].
    apply negb_true_iff in Hc. rewrite Hc, (IH Ha). reflexivity.
Qed.

Lemma Split_one (s b : string) (sep : ascii) :
  strings.Split s sep = [b] -> s = b /\ strings.lacks sep b = true.
Proof.
  revert b. induction s as [|c s IH]; simpl; intros b H.
  - inversion H. now split.
  - destruct (Ascii.eqb c sep) eqn:Hc.
    + inversion H as [[Hb Hs]]. now apply Split_nonempty in Hs.
    + destruct (strings.Split s sep) as [|p ps] eqn:Hs;
        [now apply Split_nonempty in Hs|].
      inversion H; subst. destruct (IH p eq_refl) as [-> Hp].
      simpl. rewrite Hc. now split.
Qed.

(** The converse: a split into two pieces shows where the one separator
    of the string is. *)
Lemma Split_two (s a b : string) (sep : ascii) :
  strings.Split s sep = [a; b] ->
  s = (a ++ String sep b)%string
  /\ strings.lacks sep a = true /\ strings.lacks sep b = true.
Proof.
  revert a. induction s as [|c s IH]; simpl; intros a H; [discriminate|].
  destruct (Ascii.eqb c sep) eqn:Hc.
  - apply Ascii.eqb_eq in Hc. subst c. inversion H as [[Ha Hs]].
    apply Split_one in Hs as [-> Hb]. now repeat split.
  - destruct (strings.Split s sep) as [|p ps] eqn:Hs; [discriminate|].
    inversion H; subst. destruct (IH p eq_refl) as (-> & Hp & Hb).
    simpl. rewrite Hc. auto.
Qed.

Lemma digitVal_digitChar (d : Z) :
  0 <= d < 10 -> strconv.digitVal (strconv.digitChar d) = Some d.
Proof.
  intros H.
  assert (d = 0 \/ d = 1 \/ d = 2 \/ d = 3 \/ d = 4 \/ d = 5 \/ d = 6 \/ d = 7
          \/ d = 8 \/ d = 9) as Hd by lia.
  repeat (destruct Hd as [-> | Hd]; [reflexivity|]). now subst.
Qed.

Lemma digitVal_range (c : ascii) (d : Z) : strconv.digitVal c = Some d -> 0 <= d < 10.
Proof.
  unfold strconv.digitVal. cbv zeta.
  destruct (_ && _) eqn:H; [|discriminate].
  intros [= <-]. apply andb_prop in H as [H1 H2]. lia.
Qed.

(** A digit is determined by its value. *)
Lemma digitChar_digitVal (c : ascii) (d : Z) :
  strconv.digitVal c = Some d -> strconv.digitChar d = c.
Proof.
  unfold strconv.digitVal, strconv.digitChar. cbv zeta.
  destruct (_ && _) eqn:H; [|discriminate].
  intros [= <-]. apply andb_prop in H as [H1 H2].
  replace (48 + Z.to_nat (Z.of_nat (nat_of_ascii c) - 48))%nat with (nat_of_ascii c) by lia.
  apply ascii_nat_embedding.
Qed.

Lemma parseDigits_app (s1 s2 : string) (n : Z) :
  strconv.parseDigits n (s1 ++ s2) =
  match strconv.parseDigits n s1 with
  | Some m => strconv.parseDigits m s2
  | None => None
  end.
Proof.
  revert n. induction s1 as [|c s1 IH]; simpl; intros n; [reflexivity|].
  destruct (strconv.digitVal c); [apply IH | reflexivity].
Qed.

Lemma parseDigits_ge (s : string) (n m : Z) :
  0 <= n -> strconv.parseDigits n s = Some m -> n <= m.
Proof.
  revert n. induction s as [|c s IH]; simpl; intros n Hn H.
  - inversion H. lia.
  - destruct (strconv.digitVal c) as [d|] eqn:Hd; [|discriminate].
    apply digitVal_range in Hd. apply IH in H; lia.
Qed.

End StringLemmas.

Section Numerals.

Arguments strconv.formatUint : simpl never.

Lemma formatUint_unfold (n : Z) :
  strconv.formatUint n =
  if n <? 10 then String (strconv.digitChar n) ""
  else (strconv.formatUint (n / 10) ++ String (strconv.digitChar (n mod 10)) "")%string.
Proof.
  rewrite strconv.formatUint_equation_1.
  destruct (Z_lt_dec n 10) as [H|H]; simpl.
  - apply Z.ltb_lt in H. now rewrite H.
  - apply Z.ltb_nlt in H. now rewrite H.
Qed.

Lemma formatUint_snoc (acc d : Z) :
  1 <= acc -> 0 <= d < 10 ->
  strconv.formatUint (acc * 10 + d) =
  (strconv.formatUint acc ++ String (strconv.digitChar d) "")%string.
Proof.
  intros Hacc Hd. rewrite (formatUint_unfold (acc * 10 + d)).
  destruct (Z.ltb_spec (acc * 10 + d) 10) as [H|H]; [lia|].
  assert (E1 : (acc * 10 + d) / 10 = acc)
    by (symmetry; apply Z.div_unique with d; lia).
  assert (E2 : (acc * 10 + d) mod 10 = d)
    by (symmetry; apply Z.mod_unique with acc; lia).
  rewrite E1, E2. reflexivity.
Qed.

(** Reading the digits that [formatUint] printed gives the number back. *)
Lemma parseDigits_formatUint (n : Z) :
  0 <= n -> strconv.parseDigits 0 (strconv.formatUint n) = Some n.
Proof.
  intros Hn. generalize Hn. pattern n. apply Z_lt_induction; [|exact Hn].
  clear n Hn. intros n IH Hn. rewrite formatUint_unfold.
  destruct (Z.ltb_spec n 10) as [H|H].
  - cbn [strconv.parseDigits]. rewrite digitVal_digitChar by lia. reflexivity.
  - assert (0 <= n / 10 < n) as Hq
      by (split; [apply Z.div_pos; lia | apply Z.div_lt; lia]).
    rewrite parseDigits_app, IH by (trivial; lia).
    cbn [strconv.parseDigits].
    rewrite digitVal_digitChar by (apply Z.mod_pos_bound; lia).
    f_equal. pose proof (Z.div_mod n 10). lia.
Qed.

Lemma allDigits_parse (s : string) (n : Z) :
  allDigits s = true -> exists m, strconv.parseDigits n s = Some m.
Proof.
  revert n. induction s as [|c s IH]; simpl; intros n H; [eauto|].
  apply andb_prop in H as [Hc Hs]. unfold time.isDigit in Hc.
  destruct (strconv.digitVal c); [auto | discriminate].
Qed.

Lemma parse_allDigits (s : string) (n m : Z) :
  strconv.parseDigits n s = Some m -> allDigits s = true.
Proof.
  revert n. induction s as [|c s IH]; simpl; intros n H; [reflexivity|].
  unfold time.isDigit. destruct (strconv.digitVal c); [|discriminate].
  simpl. eauto.
Qed.

(** Printing the value of digits read after a non-zero prefix appends
    those digits to the prefix. *)
Lemma formatUint_parseDigits (s : string) (acc m : Z) :
  1 <= acc -> strconv.parseDigits acc s = Some m ->
  strconv.formatUint m = (strconv.formatUint acc ++ s)%string.
Proof.
  revert acc. induction s as [|c s IH]; simpl; intros acc Hacc H.
  - inversion H. now rewrite append_nil_r.
  - destruct (strconv.digitVal c) as [d|] eqn:Hd; [|discriminate].
    pose proof (digitVal_range _ _ Hd) as Hr.
    rewrite (IH (acc * 10 + d) ltac:(lia) H), formatUint_snoc by lia.
    rewrite append_assoc'. simpl. now rewrite (digitChar_digitVal _ _ Hd).
Qed.

(** A canonical numeral is what [formatUint] prints for its value. *)
Lemma formatUint_canonical (s : string) (n : Z) :
  canonicalNumeral s = true -> strconv.parseDigits 0 s = Some n ->
  strconv.formatUint n = s.
Proof.
  destruct s as [|c rest]; simpl; [discriminate|].
  intros H Hp. apply andb_prop in H as [_ H].
  destruct (strconv.digitVal c) as [d|] eqn:Hd; [|discriminate].
  pose proof (digitVal_range _ _ Hd) as Hr.
  pose proof (digitChar_digitVal _ _ Hd) as Hc.
  destruct (Z.eq_dec d 0) as [-> | Hnz].
  - (* the leading digit is zero: the numeral is "0" *)
    subst c. simpl in H. apply String.eqb_eq in H. subst rest.
    inversion Hp. reflexivity.
  - simpl in Hp. rewrite (formatUint_parseDigits rest d n) by (trivial; lia).
    rewrite formatUint_unfold.
    destruct (Z.ltb_spec d 10); [|lia]. simpl. now rewrite Hc.
Qed.

Lemma canonical_nonneg (s : string) (n : Z) :
  strconv.parseDigits 0 s = Some n -> 0 <= n.
Proof. apply parseDigits_ge. lia. Qed.

End Numerals.

Section IntervalGrammar.

Lemma isDigit_not (c x : ascii) :
  time.isDigit x = false -> time.isDigit c = true -> Ascii.eqb c x = false.
Proof.
  intros Hx Hc. destruct (Ascii.eqb c x) eqn:E; [|reflexivity].
  apply Ascii.eqb_eq in E. congruence.
Qed.

Lemma allDigits_lacks (x : ascii) (s : string) :
  time.isDigit x = false -> allDigits s = true -> strings.lacks x s = true.
Proof.
  intros Hx. induction s as [|c s IH]; simpl; [reflexivity|].
  intros H. apply andb_prop in H as [Hc Hs].
  now rewrite (isDigit_not c x Hx Hc), IH.
Qed.

Lemma Atoi_digits (ds : string) (un : Z) :
  ds <> "" -> strconv.parseDigits 0 ds = Some un ->
  strconv.MinInt <= un <= strconv.MaxInt ->
  strconv.Atoi ds = Some un.
Proof.
  intros Hne Hp Hr. destruct ds as [|c rest]; [contradiction|].
  pose proof (parse_allDigits _ _ _ Hp) as Hd. simpl in Hd.
  apply andb_prop in Hd as [Hc _].
  unfold strconv.Atoi.
  rewrite (isDigit_not c "-" eq_refl Hc), (isDigit_not c "+" eq_refl Hc).
  cbn [orb]. rewrite Hp.
  destruct (Z.leb_spec strconv.MinInt un), (Z.leb_spec un strconv.MaxInt);
    simpl; trivial; lia.
Qed.

Lemma Atoi_accepts (tok : string) (n : Z) : goInteger tok n -> strconv.Atoi tok = Some n.
Proof.
  intros (sign & ds & un & -> & Hs & Hne & Hp & -> & Hr).
  simpl in Hs. destruct Hs as [<- | [<- | [<- | []]]].
  - simpl in *. now apply Atoi_digits.
  - simpl in *. destruct ds as [|c rest]; [contradiction|].
    rewrite Hp.
    destruct (Z.leb_spec strconv.MinInt un), (Z.leb_spec un strconv.MaxInt);
      simpl; trivial; lia.
  - cbn [String.eqb Ascii.eqb Bool.eqb] in *. simpl append.
    unfold strconv.Atoi. rewrite Ascii.eqb_refl. cbn [orb].
    destruct ds as [|c rest]; [contradiction|].
    rewrite Hp.
    destruct (Z.leb_spec strconv.MinInt (- un)), (Z.leb_spec (- un) strconv.MaxInt);
      simpl; trivial; lia.
Qed.

Lemma Atoi_accepted (tok : string) (n : Z) : strconv.Atoi tok = Some n -> goInteger tok n.
Proof.
  unfold strconv.Atoi. destruct tok as [|c rest]; [discriminate|].
  destruct (Ascii.eqb c "-") eqn:Hm; [|destruct (Ascii.eqb c "+") eqn:Hp]; cbn [orb].
  - apply Ascii.eqb_eq in Hm. subst c.
    destruct rest as [|c' rest']; [discriminate|].
    destruct (strconv.parseDigits 0 (String c' rest')) as [un|] eqn:Hd; [|discriminate].
    destruct (_ && _) eqn:Hr; [|discriminate]. intros [= <-].
    apply andb_prop in Hr as [H1 H2].
    exists "-", (String c' rest'), un. simpl. repeat split; auto; try discriminate; lia.
  - apply Ascii.eqb_eq in Hp. subst c.
    destruct rest as [|c' rest']; [discriminate|].
    destruct (strconv.parseDigits 0 (String c' rest')) as [un|] eqn:Hd; [|discriminate].
    destruct (_ && _) eqn:Hr; [|discriminate]. intros [= <-].
    apply andb_prop in Hr as [H1 H2].
    exists "+", (String c' rest'), un. simpl. repeat split; auto; try discriminate; lia.
  - destruct (strconv.parseDigits 0 (String c rest)) as [un|] eqn:Hd; [|discriminate].
    destruct (_ && _) eqn:Hr; [|discriminate]. intros [= <-].
    apply andb_prop in Hr as [H1 H2].
    exists "", (String c rest), un. simpl. repeat split; auto; try discriminate; lia.
Qed.

Lemma goInteger_lacks_space (tok : string) (n : Z) :
  goInteger tok n -> strings.lacks " " tok = true.
Proof.
  intros (sign & ds & un & -> & Hs & _ & Hp & _).
  pose proof (allDigits_lacks " " ds eq_refl (parse_allDigits _ _ _ Hp)) as Hl.
  simpl in Hs. destruct Hs as [<- | [<- | [<- | []]]]; simpl; now rewrite ?Hl.
Qed.

Lemma unit_check (unit : string) :
  negb (unit =? "hours")%string && negb (unit =? "days")%string
  && negb (unit =? "weeks")%string && negb (unit =? "months")%string = false
  <-> In unit intervalUnits.
Proof.
  unfold intervalUnits. simpl. split.
  - intros H.
    destruct (String.eqb_spec unit "hours"); [auto|].
    destruct (String.eqb_spec unit "days"); [auto|].
    destruct (String.eqb_spec unit "weeks"); [auto|].
    destruct (String.eqb_spec unit "months"); [auto 6|]. discriminate.
  - intros [<- | [<- | [<- | [<- | []]]]]; reflexivity.
Qed.

Lemma unit_lacks_space (unit : string) :
  In unit intervalUnits -> strings.lacks " " unit = true.
Proof. intros [<- | [<- | [<- | [<- | []]]]]; reflexivity. Qed.

(** The parser accepts what the grammar describes... *)
Lemma parse_accepts (s : string) (n : Z) (unit : string) :
  acceptedInterval s n unit -> parseCustomReportInterval s = inr (n, unit).
Proof.
  intros (tok & -> & Hi & Hu). unfold parseCustomReportInterval.
  cbn zeta. simpl append.
  rewrite (Split_app tok unit " " (goInteger_lacks_space _ _ Hi)).
  rewrite (Split_lacks unit " " (unit_lacks_space _ Hu)).
  cbn [length Nat.eqb negb nth]. rewrite (Atoi_accepts _ _ Hi).
  apply unit_check in Hu. now rewrite Hu.
Qed.

(** ... and nothing else, ... *)
Lemma parse_accepted (s : string) (n : Z) (unit : string) :
  parseCustomReportInterval s = inr (n, unit) -> acceptedInterval s n unit.
Proof.
  unfold parseCustomReportInterval. cbn zeta.
  destruct (strings.Split s " ") as [|a [|b [|c l]]] eqn:Hs; try discriminate.
  cbn [length Nat.eqb negb nth].
  destruct (strconv.Atoi a) as [m|] eqn:Ha; [|discriminate].
  destruct (_ && _) eqn:Hu; [discriminate|]. intros [= <- <-].
  apply Split_two in Hs as (-> & _ & _).
  exists a. repeat split; [now apply Atoi_accepted | now apply unit_check].
Qed.

(** ... and every failure is the one grammar error. *)
Lemma parse_error_uniform (s : string) (err : error) :
  parseCustomReportInterval s = inl err -> err = parseErr.
Proof.
  unfold parseCustomReportInterval. cbn zeta.
  destruct (negb _); [now intros [= <-]|].
  destruct (strconv.Atoi _); [|now intros [= <-]].
  destruct (_ && _); [now intros [= <-] | discriminate].
Qed.

End IntervalGrammar.

Section IntervalClaims.

Lemma formatUint_head (n : Z) :
  1 <= n ->
  exists c rest, strconv.formatUint n = String c rest /\ Ascii.eqb c "0" = false.
Proof.
  intros Hn. generalize Hn. pattern n. apply Z_lt_induction; [|lia].
  clear n Hn. intros n IH Hn. rewrite formatUint_unfold.
  destruct (Z.ltb_spec n 10) as [H|H].
  - exists (strconv.digitChar n), "".
    assert (n = 1 \/ n = 2 \/ n = 3 \/ n = 4 \/ n = 5 \/ n = 6 \/ n = 7 \/ n = 8 \/ n = 9)
      as Hd by lia.
    repeat (destruct Hd as [-> | Hd]; [split; reflexivity|]).
    subst. split; reflexivity.
  - assert (1 <= n / 10 < n) as Hq
      by (split; [apply Z.div_le_lower_bound; lia | apply Z.div_lt; lia]).
    destruct (IH (n / 10) ltac:(lia) ltac:(lia)) as (c & rest & -> & Hc).
    exists c, (rest ++ String (strconv.digitChar (n mod 10)) "")%string.
    split; trivial.
Qed.

(** Every non-negative integer has a canonical numeral, the one [%d]
    prints. *)
Lemma formatUint_is_canonical (n : Z) :
  0 <= n ->
  canonicalNumeral (strconv.formatUint n) = true
  /\ strconv.parseDigits 0 (strconv.formatUint n) = Some n.
Proof.
  intros Hn. pose proof (parseDigits_formatUint n Hn) as Hp. split; [|exact Hp].
  pose proof (parse_allDigits _ _ _ Hp) as Hd.
  destruct (Z.eq_dec n 0) as [-> | Hnz]; [reflexivity|].
  destruct (formatUint_head n ltac:(lia)) as (c & rest & E & Hc).
  rewrite E in *. unfold canonicalNumeral. now rewrite Hd, Hc.
Qed.

Lemma canonical_interval_parses (ds unit : string) (n : Z) :
  canonicalNumeral ds = true ->
  strconv.parseDigits 0 ds = Some n ->
  n <= strconv.MaxInt ->
  In unit intervalUnits ->
  parseCustomReportInterval (ds ++ " " ++ unit) = inr (n, unit).
Proof.
  intros Hc Hp Hmax Hu.
  pose proof (canonical_nonneg _ _ Hp) as Hn.
  apply parse_accepts. exists ds. repeat split; trivial.
  exists "", ds, n. simpl. repeat split; auto.
  - intros ->. discriminate.
  - unfold strconv.MinInt. lia.
Qed.

(** From the amount: what ["%d %s"] prints for an amount in
    [0 .. MaxInt] and a unit parses back to them. *)
Lemma formatted_interval_parses (n : Z) (unit : string) :
  0 <= n <= strconv.MaxInt -> In unit intervalUnits ->
  parseCustomReportInterval (fmt.Sprintf_d_s n unit) = inr (n, unit).
Proof.
  intros [Hn Hmax] Hu.
  destruct (formatUint_is_canonical n Hn) as [Hc Hp].
  unfold fmt.Sprintf_d_s, strconv.FormatInt.
  destruct (Z.ltb_spec n 0); [lia|].
  now apply canonical_interval_parses.
Qed.

(** A spelling that is not canonical parses too, and is not reproduced:
    the reformatted string is the canonical one. *)
Example noncanonical_interval :
  parseCustomReportInterval "007 days" = inr (7, "days")
  /\ fmt.Sprintf_d_s 7 "days" = "7 days"
  /\ parseCustomReportInterval "+7 days" = inr (7, "days").
Proof. repeat split; vm_compute; reflexivity. Qed.

(** C5, as the specification states it, fails: the amount token of
    ["-3 days"] is no positive-or-zero decimal integer (it is not even a
    string of digits), and the parser returns the amount [-3]. *)
Lemma negative_amount_accepted :
  strings.Split "-3 days" " " = ["-3"; "days"]
  /\ allDigits "-3" = false
  /\ parseCustomReportInterval "-3 days" = inr (-3, "days").
Proof. repeat split; vm_compute; reflexivity. Qed.

(** C5, amended. [parseCustomReportInterval] is total on strings and has
    one error: it returns [(n, unit)] exactly for the strings made of a
    token that [strconv.Atoi] reads as [n] (an optional sign, decimal
    digits, the value in the range of [int]), one space, and one of
    hours, days, weeks, months; for every other string it returns the
    grammar error [parseErr]. *)
Theorem interval_grammar (s : string) :
  (forall n unit, parseCustomReportInterval s = inr (n, unit) <-> acceptedInterval s n unit)
  /\ (parseCustomReportInterval s = inl parseErr
      <-> ~ exists n unit, acceptedInterval s n unit).
Proof.
  split.
  - intros n unit. split; [apply parse_accepted | apply parse_accepts].
  - split.
    + intros He (n & unit & Ha). apply parse_accepts in Ha. congruence.
    + intros Hno. destruct (parseCustomReportInterval s) as [err | [n unit]] eqn:Hp.
      * now rewrite (parse_error_uniform _ _ Hp).
      * exfalso. apply Hno. exists n, unit. now apply parse_accepted.
Qed.

End IntervalClaims.

(* ===================================================================== *)
(** * Schedule translation *)
(* ===================================================================== *)

(** Case analysis along the tests and calls of a translation whose
    result is known. *)
Ltac break_inner t :=
  match t with
  | context [match ?x with _ => _ end] => break_inner x
  | _ => destruct t eqn:?
  end.

Ltac break_result H :=
  repeat match type of H with
         | context [match ?x with _ => _ end] => break_inner x
         end;
  try discriminate H.

Section ScheduleTranslation.
Context {RT : Runtime}.

(** The translation touches the schedule of the command and nothing
    else, and leaves frequency and time zone as [createReportSchema]
    copied them. *)
Lemma setReportFrequency_frame (report r : Cmd.t) (d : ResourceData.t) :
  setReportFrequency report d = inr r ->
  r = Cmd.with_Schedule (Cmd.Schedule r) report
  /\ ScheduleDTO.Frequency (Cmd.Schedule r) = ScheduleDTO.Frequency (Cmd.Schedule report)
  /\ ScheduleDTO.TimeZone (Cmd.Schedule r) = ScheduleDTO.TimeZone (Cmd.Schedule report).
Proof.
  unfold setReportFrequency. cbv zeta. intros H.
  break_result H; inversion H; subst; clear H; repeat split; reflexivity.
Qed.

Lemma setReportFrequency_DayOfMonth (report r : Cmd.t) (d : ResourceData.t) :
  setReportFrequency report d = inr r ->
  ScheduleDTO.DayOfMonth (Cmd.Schedule r) =
  if (ScheduleDTO.Frequency (Cmd.Schedule report) =? reportFrequencyMonthly)%string
     && ScheduleBlock.last_day_of_month (ResourceData.schedule_0 d)
  then "last"
  else ScheduleDTO.DayOfMonth (Cmd.Schedule report).
Proof.
  unfold setReportFrequency. cbv zeta. intros H.
  break_result H; inversion H; subst; clear H; reflexivity.
Qed.


Lemma with_Schedule_same (report : Cmd.t) :
  Cmd.with_Schedule (Cmd.Schedule report) report = report.
Proof. now destruct report. Qed.

(** The steps of [schemaToReportParams] when it succeeds: the dashboard
    step, the formats default, the schedule. *)
Lemma schemaToReportParams_steps (d : ResourceData.t) (r : Cmd.t) :
  schemaToReportParams d = inr r ->
  exists base,
    (if (0 <? length (ResourceData.dashboards d))%nat then inr (createReportSchema d)
     else setDeprecatedDashboardValues (createReportSchema d) d) = inr base
    /\ setReportFrequency
         (if (length (ResourceData.formats d) =? 0)%nat
          then Cmd.with_Formats [reportFormatPDF] base else base) d = inr r.
Proof.
  unfold schemaToReportParams, common.SetToStringSlice. cbv zeta. intros H.
  destruct (if (0 <? length (ResourceData.dashboards d))%nat then _ else _)
    as [err | base]; [discriminate|].
  exists base. split; [reflexivity | exact H].
Qed.

(** The dashboard step leaves schedule and formats alone. *)
Lemma setDeprecatedDashboardValues_frame (report base : Cmd.t) (d : ResourceData.t) :
  setDeprecatedDashboardValues report d = inr base ->
  Cmd.Schedule base = Cmd.Schedule report /\ Cmd.Formats base = Cmd.Formats report.
Proof.
  unfold setDeprecatedDashboardValues. cbv zeta. intros H.
  break_result H; inversion H; subst; clear H; split; reflexivity.
Qed.

Lemma schemaToReportParams_base (d : ResourceData.t) (base : Cmd.t) :
  (if (0 <? length (ResourceData.dashboards d))%nat then inr (createReportSchema d)
   else setDeprecatedDashboardValues (createReportSchema d) d) = inr base ->
  Cmd.Schedule base = Cmd.Schedule (createReportSchema d) /\ Cmd.Formats base = [].
Proof.
  destruct (0 <? length (ResourceData.dashboards d))%nat.
  - intros [= <-]. split; reflexivity.
  - intros H. apply setDeprecatedDashboardValues_frame in H. exact H.
Qed.

(** The schedule a successful [schemaToReportParams] starts from is the
    one of [createReportSchema]. *)
Lemma schemaToReportParams_schedule (d : ResourceData.t) (r : Cmd.t) :
  schemaToReportParams d = inr r ->
  exists report,
    setReportFrequency report d = inr r
    /\ Cmd.Schedule report = Cmd.Schedule (createReportSchema d).
Proof.
  intros H. apply schemaToReportParams_steps in H as (base & Hb & Hs).
  apply schemaToReportParams_base in Hb as [Hsch _].
  eexists. split; [exact Hs|].
  destruct (length (ResourceData.formats d) =? 0)%nat; [|exact Hsch].
  destruct base; exact Hsch.
Qed.

End ScheduleTranslation.

Section AssemblyClaims.
Context {RT : Runtime}.

(** With a non-empty [dashboards] list the command carries no dashboard
    at all: neither a binding entry nor the deprecated id. *)
Lemma list_form_sends_no_dashboard (d : ResourceData.t) (r : Cmd.t) :
  ResourceData.dashboards d <> [] ->
  schemaToReportParams d = inr r ->
  Cmd.Dashboards r = [] /\ Cmd.DashboardID r = 0.
Proof.
  intros Hne H. apply schemaToReportParams_steps in H as (base & Hb & Hs).
  destruct (ResourceData.dashboards d) as [|b bs]; [contradiction|].
  simpl in Hb. injection Hb as <-.
  apply setReportFrequency_frame in Hs as (-> & _).
  destruct (length (ResourceData.formats d) =? 0)%nat; split; reflexivity.
Qed.

(** C9. A successful [schemaToReportParams] leaves the [Formats] of the
    command unset when the declared [formats] set is non-empty -- the
    declared strings are not copied -- and writes exactly [[pdf]] when
    the declared set is empty. *)
Theorem formats_never_copied (d : ResourceData.t) (r : Cmd.t) :
  schemaToReportParams d = inr r ->
  (ResourceData.formats d <> [] -> Cmd.Formats r = [])
  /\ (ResourceData.formats d = [] -> Cmd.Formats r = [reportFormatPDF]).
Proof.
  intros H. apply schemaToReportParams_steps in H as (base & Hb & Hs).
  apply schemaToReportParams_base in Hb as [_ Hf].
  apply setReportFrequency_frame in Hs as (-> & _).
  destruct (ResourceData.formats d) as [|f fs]; simpl; split; intros Hd;
    try congruence; exact Hf.
Qed.



End AssemblyClaims.

Section AssemblyExamples.

Lemma formats_never_copied_witness :
  exists r,
    commandOf (legacyReport ["csv"; "image"] dailySchedule) = Some r
    /\ (ResourceData.formats (legacyReport ["csv"; "image"] dailySchedule) <> []
        -> Cmd.Formats r = [])
    /\ (ResourceData.formats (legacyReport ["csv"; "image"] dailySchedule) = []
        -> Cmd.Formats r = [reportFormatPDF]).
Proof.
  eexists. split; [vm_compute; reflexivity|].
  apply (formats_never_copied (RT := goRuntime)
           (legacyReport ["csv"; "image"] dailySchedule)).
  vm_compute. reflexivity.
Defined.


(** C1 on the code. For the scenario of the specification -- a
    [dashboards] list of two entries, the first with the time range
    [now-1h .. now] -- the bindings asked for are two entries in list
    order; the command [schemaToReportParams] builds has the day of
    month ["last"] and the time zone, and no dashboard entry at all. *)
Theorem scenario_dashboards_not_sent :
  spec_bindings scenario =
    [ DashboardDTO.mk (Some (DashboardReportDTO.mk 0 "report")) None
        (Some (TimeRangeDTO.mk "now-1h" "now"));
      DashboardDTO.mk (Some (DashboardReportDTO.mk 0 "report")) None None ]
  /\ exists r,
      schemaToReportParams (RT := goRuntime) scenario = inr r
      /\ ScheduleDTO.DayOfMonth (Cmd.Schedule r) = "last"
      /\ ScheduleDTO.TimeZone (Cmd.Schedule r) = "America/Los_Angeles"
      /\ Cmd.Dashboards r = [].
Proof.
  split; [reflexivity|].
  eexists. split; [vm_compute; reflexivity|]. repeat split.
Qed.

End AssemblyExamples.

Section EndTimeClaims.

(** C2, as the specification states it, fails: with frequency [once] and
    the end time 2030-01-01 declared, the translation returns no error;
    it returns the command as [createReportSchema] built it, the end
    date unset. *)
Lemma end_time_with_once_not_rejected :
  ScheduleBlock.frequency onceSchedule = reportFrequencyOnce
  /\ ScheduleBlock.end_time onceSchedule = "2030-01-01T00:00:00Z"
  /\ setReportFrequency (RT := goRuntime)
       (createReportSchema (legacyReport [] onceSchedule)) (legacyReport [] onceSchedule)
     = inr (createReportSchema (legacyReport [] onceSchedule))
  /\ ScheduleDTO.EndDate (Cmd.Schedule (createReportSchema (legacyReport [] onceSchedule)))
     = time.zero.
Proof. repeat split; vm_compute; reflexivity. Qed.

Context {RT : Runtime}.

(** C2, amended. With frequency [once] or [never], [setReportFrequency]
    does not read the declared end time: it neither rejects it nor
    sends it.  With [never] the command is returned as it came; with
    [once] only the start time is translated (and only its parse error
    can be returned); in both the wire end date stays as it was. *)
Theorem end_time_ignored_once_never (report : Cmd.t) (d : ResourceData.t) :
  let frequency := ScheduleDTO.Frequency (Cmd.Schedule report) in
  let startTimeStr := ScheduleBlock.start_time (ResourceData.schedule_0 d) in
  (frequency = reportFrequencyNever -> setReportFrequency report d = inr report)
  /\ (frequency = reportFrequencyOnce ->
      setReportFrequency report d =
      if (startTimeStr =? "")%string then inr report
      else match time_Parse startTimeStr with
           | inl err => inl err
           | inr startDate =>
               inr (Cmd.with_Schedule
                      (ScheduleDTO.with_StartDate (time.UTC startDate) (Cmd.Schedule report))
                      report)
           end)
  /\ (frequency = reportFrequencyOnce \/ frequency = reportFrequencyNever ->
      forall r, setReportFrequency report d = inr r ->
                ScheduleDTO.EndDate (Cmd.Schedule r)
                = ScheduleDTO.EndDate (Cmd.Schedule report)).
Proof.
  cbv zeta.
  assert (ScheduleDTO.Frequency (Cmd.Schedule report) = reportFrequencyNever ->
          setReportFrequency report d = inr report) as Hnever.
  { intros Hf. unfold setReportFrequency. cbv zeta. rewrite Hf. simpl.
    now rewrite with_Schedule_same. }
  assert (ScheduleDTO.Frequency (Cmd.Schedule report) = reportFrequencyOnce ->
          setReportFrequency report d =
          if (ScheduleBlock.start_time (ResourceData.schedule_0 d) =? "")%string
          then inr report
          else match time_Parse (ScheduleBlock.start_time (ResourceData.schedule_0 d)) with
               | inl err => inl err
               | inr startDate =>
                   inr (Cmd.with_Schedule
                          (ScheduleDTO.with_StartDate (time.UTC startDate)
                             (Cmd.Schedule report))
                          report)
               end) as Honce.
  { intros Hf. unfold setReportFrequency. cbv zeta. rewrite Hf. simpl.
    destruct (ScheduleBlock.start_time (ResourceData.schedule_0 d) =? "")%string; simpl.
    - now rewrite with_Schedule_same.
    - destruct (time_Parse _); reflexivity. }
  repeat split; trivial.
  intros [Hf | Hf] r H.
  - rewrite (Honce Hf) in H.
    destruct (ScheduleBlock.start_time (ResourceData.schedule_0 d) =? "")%string.
    + now injection H as <-.
    + destruct (time_Parse _); [discriminate|]. now injection H as <-.
  - rewrite (Hnever Hf) in H. now injection H as <-.
Qed.

End EndTimeClaims.

Lemma end_time_ignored_once_never_witness :
  setReportFrequency (RT := goRuntime)
    (createReportSchema (legacyReport [] onceSchedule)) (legacyReport [] onceSchedule)
  = inr (createReportSchema (legacyReport [] onceSchedule)).
Proof.
  exact (proj1 (proj2 (end_time_ignored_once_never (RT := goRuntime)
                         (createReportSchema (legacyReport [] onceSchedule))
                         (legacyReport [] onceSchedule))) eq_refl).
Defined.

(* ===================================================================== *)
(** * The equivalence of time values *)
(* ===================================================================== *)

Section TimeEquivalence.

(** C8, as the specification states it, fails for end times: the empty
    declared end time is equivalent to the stored end time
    0001-01-01T00:00:00Z, which is not empty (nor is that by way of the
    current time: the function of end times has none). *)
Lemma empty_end_time_equals_zero_instant :
  String.eqb "0001-01-01T00:00:00Z" "" = false
  /\ time_Parse (Runtime := goRuntime) "0001-01-01T00:00:00Z" = inr time.zero
  /\ end_time_DiffSuppressFunc (RT := goRuntime) "0001-01-01T00:00:00Z" "" = true.
Proof. repeat split; vm_compute; reflexivity. Qed.

Context {RT : Runtime}.

Lemma parsedOrZero_empty : parsedOrZero "" = time.zero.
Proof.
  unfold parsedOrZero. destruct (time_Parse "") as [err | t] eqn:H; [reflexivity|].
  now apply time_Parse_empty in H.
Qed.

(** C8, amended. In both functions a value stands for the instant it
    parses to as RFC 3339, and for the zero instant 0001-01-01T00:00:00Z
    when it does not parse (the empty string never does).  The start
    times [old] (stored) and [new] (declared) are equivalent iff [new]
    is empty and the instant of [old] is strictly before [now], or the
    two instants are equal.  End times are equivalent iff the two
    instants are equal, with no case for the current time: an empty
    declared end time is equivalent to exactly the stored end times
    whose instant is the zero instant -- the empty one, any other that
    does not parse, and 0001-01-01T00:00:00Z itself. *)
Theorem time_equivalence (now : time.Time) (old new : string) :
  (start_time_DiffSuppressFunc now old new = true
   <-> (new = "" /\ time.abs (parsedOrZero old) < time.abs now)
       \/ time.abs (parsedOrZero old) = time.abs (parsedOrZero new))
  /\ (end_time_DiffSuppressFunc old new = true
      <-> time.abs (parsedOrZero old) = time.abs (parsedOrZero new))
  /\ (end_time_DiffSuppressFunc old "" = true
      <-> (forall t, time_Parse old = inr t -> time.abs t = 0)).
Proof.
  unfold start_time_DiffSuppressFunc, end_time_DiffSuppressFunc, time.Before, time.Equal.
  cbv zeta. split; [split | split; split].
  - destruct (String.eqb_spec new ""); simpl.
    + destruct (Z.ltb_spec (time.abs (parsedOrZero old)) (time.abs now)) as [Hlt | Hge];
        [auto|].
      intros Heq. right. now apply Z.eqb_eq.
    + intros Heq. right. now apply Z.eqb_eq.
  - intros [[-> Hlt] | Heq].
    + apply Z.ltb_lt in Hlt. rewrite Hlt. reflexivity.
    + apply Z.eqb_eq in Heq. rewrite Heq. now destruct (_ && _).
  - apply Z.eqb_eq.
  - apply Z.eqb_eq.
  - rewrite parsedOrZero_empty. intros H t Ht. apply Z.eqb_eq in H.
    unfold parsedOrZero in H. now rewrite Ht in H.
  - rewrite parsedOrZero_empty. intros H. apply Z.eqb_eq.
    unfold parsedOrZero. destruct (time_Parse old) as [err | t] eqn:Ht; [reflexivity|].
    now apply H.
Qed.

(** What the specification says of start times, where it holds: an
    empty declared start time is equivalent to any stored one that
    parses to an instant before now; and two values that both parse are
    equivalent, the case above apart, iff their instants are equal. *)
Lemma start_time_of_parsed (now t u : time.Time) (old new : string) :
  time_Parse old = inr t ->
  (time.Before t now = true -> start_time_DiffSuppressFunc now old "" = true)
  /\ (time_Parse new = inr u ->
      start_time_DiffSuppressFunc now old new = true <-> time.abs t = time.abs u).
Proof.
  intros Ht. unfold start_time_DiffSuppressFunc, parsedOrZero. cbv zeta.
  rewrite Ht. split.
  - intros Hb. simpl. now rewrite Hb.
  - intros Hu. rewrite Hu.
    destruct (String.eqb_spec new "") as [-> | Hne].
    + now apply time_Parse_empty in Hu.
    + simpl. apply Z.eqb_eq.
Qed.

End TimeEquivalence.

(* ===================================================================== *)
(** * Reading a report back *)
(* ===================================================================== *)

(** One step of an operation: the monad and its primitives unfolded. *)
Ltac run_op :=
  repeat first
    [ progress cbv beta iota delta
        [bind ret modify send getData index0 deref panic errOf valueOf Set_schedule_map]
    | progress cbn [data sent] ].

Section ReadBack.
Context {RT : Runtime}.

(** What a read that comes back without diagnostics has done, for the
    attributes the claims are about. *)
Lemma ReadReport_returned (meta : Meta) (w w' : World) (id : Z) (payload : ConfigDTO.t) :
  ParseInt (ExistingID meta (ResourceData.Id (data w))) = inr id ->
  GetReport_response (Reports meta) id = inr payload ->
  ReadReport meta w = Returned [] w' ->
  exists dashboards0 rest dashboard timeRange schedule m,
    ConfigDTO.Dashboards payload = dashboards0 :: rest
    /\ DashboardDTO.Dashboard dashboards0 = Some dashboard
    /\ DashboardDTO.TimeRange dashboards0 = Some timeRange
    /\ ConfigDTO.Schedule payload = Some schedule
    /\ readSchedule schedule = inr m
    /\ ResourceData.dashboard_id (data w') = DashboardReportDTO.ID dashboard
    /\ ResourceData.dashboard_uid (data w') = DashboardReportDTO.UID dashboard
    /\ ResourceData.time_range (data w') =
       (if negb (TimeRangeDTO.From timeRange =? "")%string
        then [TimeRangeBlock.mk (TimeRangeDTO.From timeRange) (TimeRangeDTO.To timeRange)]
        else ResourceData.time_range (data w))
    /\ ResourceData.schedule (data w') =
       match scheduleBlockOf m with
       | inr block => [block]
       | inl _ => ResourceData.schedule (data w)
       end
    /\ sent w' = (sent w ++ [GetReportRequest id])%list.
Proof.
  intros Hid Hget. unfold ReadReport. run_op. rewrite Hid. run_op.
  unfold CheckReadError. rewrite Hget. run_op.
  destruct (ConfigDTO.Dashboards payload) as [|dashboards0 rest] eqn:Hds; run_op;
    [intros H; discriminate H|].
  destruct (DashboardDTO.Dashboard dashboards0) as [dashboard|] eqn:Hd; run_op;
    [|intros H; discriminate H].
  destruct (ConfigDTO.Options payload) as [options|]; run_op;
    [|intros H; discriminate H].
  destruct (0 <? length _)%nat; run_op;
    (destruct (DashboardDTO.TimeRange dashboards0) as [timeRange|] eqn:Htr; run_op;
     [|intros H; discriminate H]);
    (destruct (negb (TimeRangeDTO.From timeRange =? "")%string) eqn:Hfrom; run_op;
     (destruct (ConfigDTO.Schedule payload) as [schedule|] eqn:Hsch; run_op;
      [|intros H; discriminate H]);
     (destruct (readSchedule schedule) as [err|m] eqn:Hm; run_op;
      [intros H; discriminate H|]);
     (destruct (scheduleBlockOf m) as [err|block] eqn:Hblock; run_op);
     intros [= <-];
     exists dashboards0, rest, dashboard, timeRange, schedule, m;
     rewrite Hfrom, Hblock; repeat split; trivial).
Qed.

End ReadBack.

Section ReadClaims.
Context {RT : Runtime}.

(** C10. [ReadReport] reads [r.Payload.Dashboards[0]] whatever the
    length of that array.  For an entity whose [Dashboards] is empty the
    read panics with an index out of range instead of returning
    diagnostics; so whenever it returns, the array was not empty; and
    when it returns without diagnostics, [dashboard_id], [dashboard_uid]
    and the legacy [time_range] are those of the zeroth entry. *)
Theorem read_requires_a_dashboard
    (meta : Meta) (w : World) (id : Z) (payload : ConfigDTO.t) :
  ParseInt (ExistingID meta (ResourceData.Id (data w))) = inr id ->
  GetReport_response (Reports meta) id = inr payload ->
  (ConfigDTO.Dashboards payload = [] ->
   exists w',
     ReadReport meta w
     = Panicked "runtime error: index out of range [0] with length 0" w')
  /\ (forall diags w',
         ReadReport meta w = Returned diags w' -> ConfigDTO.Dashboards payload <> [])
  /\ (forall w',
         ReadReport meta w = Returned [] w' ->
         exists dashboards0 rest dashboard timeRange,
           ConfigDTO.Dashboards payload = dashboards0 :: rest
           /\ DashboardDTO.Dashboard dashboards0 = Some dashboard
           /\ DashboardDTO.TimeRange dashboards0 = Some timeRange
           /\ ResourceData.dashboard_id (data w') = DashboardReportDTO.ID dashboard
           /\ ResourceData.dashboard_uid (data w') = DashboardReportDTO.UID dashboard
           /\ (TimeRangeDTO.From timeRange <> "" ->
               ResourceData.time_range (data w')
               = [TimeRangeBlock.mk (TimeRangeDTO.From timeRange)
                                    (TimeRangeDTO.To timeRange)])).
Proof.
  intros Hid Hget.
  assert (ConfigDTO.Dashboards payload = [] ->
          exists w',
            ReadReport meta w
            = Panicked "runtime error: index out of range [0] with length 0" w') as Hpanic.
  { intros Hempty. unfold ReadReport. run_op. rewrite Hid. run_op.
    unfold CheckReadError. rewrite Hget. run_op. rewrite Hempty. run_op.
    eexists. reflexivity. }
  split; [exact Hpanic|]. split.
  - intros diags w' Hret Hempty. destruct (Hpanic Hempty) as [w'' Hp]. congruence.
  - intros w' Hret.
    destruct (ReadReport_returned meta w w' id payload Hid Hget Hret)
      as (dashboards0 & rest & dashboard & timeRange & schedule & m
          & Hds & Hd & Htr & _ & _ & Hdid & Huid & Htime & _).
    exists dashboards0, rest, dashboard, timeRange. repeat split; trivial.
    intros Hfrom. rewrite Htime.
    destruct (String.eqb_spec (TimeRangeDTO.From timeRange) ""); [contradiction|].
    reflexivity.
Qed.

End ReadClaims.

Lemma read_requires_a_dashboard_witness :
  exists w',
    ReadReport (RT := goRuntime) (orgMeta (service (storedReport [] "last")))
      (created (legacyReport [] monthlySchedule))
    = Panicked "runtime error: index out of range [0] with length 0" w'.
Proof.
  apply (proj1 (read_requires_a_dashboard (RT := goRuntime)
                  (orgMeta (service (storedReport [] "last")))
                  (created (legacyReport [] monthlySchedule)) 7
                  (storedReport [] "last") eq_refl eq_refl)).
  reflexivity.
Defined.

(** A read that succeeds: the legacy fields come from the zeroth entry.
    The schedule of the state is the one it had: the map built from the
    wire schedule holds the two dates as [time.Time], and is refused. *)
Example read_back_example :
  exists w',
    ReadReport (RT := goRuntime) (orgMeta (service (storedReport oneDashboard "last")))
      (created (legacyReport [] dailySchedule))
    = Returned [] w'
    /\ ResourceData.dashboard_id (data w') = 12
    /\ ResourceData.dashboard_uid (data w') = "report"
    /\ ResourceData.time_range (data w') = [TimeRangeBlock.mk "now-1h" "now"]
    /\ ResourceData.schedule (data w') = [dailySchedule]
    /\ sent w' = [GetReportRequest 7].
Proof. eexists. split; [vm_compute; reflexivity|]. repeat split. Qed.

Section SentinelClaims.
Context {RT : Runtime}.

(** The map a read builds has the key [last_day_of_month], with the
    value [true], iff the day of month of the wire schedule is
    ["last"]. *)
Lemma readSchedule_last_day (schedule : ScheduleDTO.t) (m : ScheduleMap.t) :
  readSchedule schedule = inr m ->
  ScheduleMap.last_day_of_month m = Some true
  <-> ScheduleDTO.DayOfMonth schedule = "last".
Proof.
  unfold readSchedule. cbv zeta. intros H.
  destruct (String.eqb_spec (ScheduleDTO.DayOfMonth schedule) "last") as [Hl | Hl];
    break_result H; inversion H; subst; clear H; simpl; split; trivial;
    try discriminate; contradiction.
Qed.

(** The map a read builds holds a [time.Time] for each date that prints
    as a non-empty string, and is refused by the schema layer as soon
    as it holds one. *)
Lemma readSchedule_refused (schedule : ScheduleDTO.t) (m : ScheduleMap.t) :
  readSchedule schedule = inr m ->
  DateTime_String (ScheduleDTO.StartDate schedule) <> ""
  \/ DateTime_String (ScheduleDTO.EndDate schedule) <> "" ->
  exists err, scheduleBlockOf m = inl err.
Proof.
  unfold readSchedule. cbv zeta. intros H Hprint.
  destruct (String.eqb_spec (DateTime_String (ScheduleDTO.StartDate schedule)) "") as [Hs | Hs];
    destruct (String.eqb_spec (DateTime_String (ScheduleDTO.EndDate schedule)) "") as [He | He];
    cbn [negb] in H; break_result H; inversion H; subst; clear H;
    unfold scheduleBlockOf; cbn [ScheduleMap.start_time ScheduleMap.end_time];
    try (eexists; reflexivity);
    destruct Hprint; contradiction.
Qed.

(** X21. The sentinel on write: the command of [schemaToReportParams]
    has the day of month ["last"] iff the declared frequency is monthly
    and the [last_day_of_month] flag is set; no other frequency
    produces it. *)
Theorem last_day_sentinel_on_write (d : ResourceData.t) (r : Cmd.t) :
  schemaToReportParams d = inr r ->
  ScheduleDTO.DayOfMonth (Cmd.Schedule r) = "last"
  <-> ScheduleBlock.frequency (ResourceData.schedule_0 d) = reportFrequencyMonthly
      /\ ScheduleBlock.last_day_of_month (ResourceData.schedule_0 d) = true.
Proof.
  intros H.
  apply schemaToReportParams_schedule in H as (report & Hs & Hsch).
  rewrite (setReportFrequency_DayOfMonth _ _ _ Hs), Hsch. simpl.
  destruct (String.eqb_spec (ScheduleBlock.frequency (ResourceData.schedule_0 d))
              reportFrequencyMonthly) as [Hf | Hf];
    destruct (ScheduleBlock.last_day_of_month (ResourceData.schedule_0 d)); simpl;
    (split;
     [ intros H; try discriminate H; auto
     | intros [H1 H2]; try discriminate H2; try contradiction; reflexivity ]).
Qed.

End SentinelClaims.

Lemma last_day_sentinel_on_write_witness :
  exists r,
    commandOf (legacyReport [] monthlySchedule) = Some r
    /\ ScheduleDTO.DayOfMonth (Cmd.Schedule r) = "last".
Proof.
  eexists. split; [vm_compute; reflexivity|].
  apply (last_day_sentinel_on_write (RT := goRuntime) (legacyReport [] monthlySchedule)).
  - vm_compute. reflexivity.
  - split; reflexivity.
Defined.

(** C6. The reverse half of the claim fails on the code.  The state
    holds a daily schedule with [last_day_of_month = false]; the service
    holds the report with a monthly schedule whose day of month is
    ["last"].  [ReadReport] builds the schedule map with
    [last_day_of_month = true], as the claim says, but hands it to
    [d.Set] with the two dates as [time.Time] under string attributes:
    the map is refused, the error is dropped, the read returns without
    diagnostics, and the flag of the state is still [false]. *)
Theorem last_day_of_month_not_read_back :
  exists schedule m err w',
    ConfigDTO.Schedule (storedReport oneDashboard "last") = Some schedule
    /\ ScheduleDTO.DayOfMonth schedule = "last"
    /\ readSchedule (RT := goRuntime) schedule = inr m
    /\ ScheduleMap.last_day_of_month m = Some true
    /\ scheduleBlockOf m = inl err
    /\ ScheduleBlock.last_day_of_month
         (ResourceData.schedule_0 (data (created (legacyReport [] dailySchedule)))) = false
    /\ ReadReport (RT := goRuntime) (orgMeta (service (storedReport oneDashboard "last")))
         (created (legacyReport [] dailySchedule))
       = Returned [] w'
    /\ ScheduleBlock.last_day_of_month (ResourceData.schedule_0 (data w')) = false.
Proof.
  do 4 eexists.
  split; [reflexivity|]. split; [reflexivity|].
  split; [vm_compute; reflexivity|]. split; [reflexivity|].
  split; [reflexivity|]. split; [reflexivity|].
  split; [vm_compute; reflexivity|]. reflexivity.
Qed.

(* ===================================================================== *)
(** * Validation errors and the network *)
(* ===================================================================== *)

Ltac break_goal :=
  repeat (run_op;
          match goal with
          | |- context [match ?x with _ => _ end] => break_inner x
          end);
  run_op.

Section ValidationErrors.
Context {RT : Runtime}.

(** A read sends nothing, or the one get. *)
Lemma ReadReport_requests (meta : Meta) (w : World) :
  requests (ReadReport meta w) = sent w
  \/ exists id, requests (ReadReport meta w) = (sent w ++ [GetReportRequest id])%list.
Proof.
  unfold ReadReport. run_op.
  destruct (ParseInt _) as [err | id]; run_op; [left; reflexivity|].
  right. exists id. unfold CheckReadError.
  break_goal; reflexivity.
Qed.

(** X5. [UpdateReport] returns the error of [schemaToReportParams] to
    the caller before anything is sent: the state is as it was, no
    request has gone out. *)
Theorem UpdateReport_validation_error (meta : Meta) (w : World) (id : Z) (err : error) :
  ParseInt (ExistingID meta (ResourceData.Id (data w))) = inr id ->
  schemaToReportParams (data w) = inl err ->
  UpdateReport meta w = Returned [FromErr err] w.
Proof.
  intros Hid Herr. unfold UpdateReport. run_op. rewrite Hid, Herr. reflexivity.
Qed.

(** [CreateReport] does not: with the same error in hand it sends the
    create request, without a body. *)
Lemma CreateReport_validation_error (meta : Meta) (w : World) (err : error) :
  schemaToReportParams (data w) = inl err ->
  exists after,
    requests (CreateReport meta w) = (sent w ++ CreateReportRequest None :: after)%list.
Proof.
  intros Herr. unfold CreateReport. run_op. rewrite Herr. run_op.
  destruct (CreateReport_response (Reports meta) None) as [e | payloadID]; run_op.
  - exists []. reflexivity.
  - match goal with
    | |- context [ReadReport meta ?w0] =>
        destruct (ReadReport_requests meta w0) as [H | [id H]]; rewrite H
    end; cbn [sent].
    + exists []. reflexivity.
    + exists [GetReportRequest id]. now rewrite <- app_assoc.
Qed.

End ValidationErrors.

(** C3 on the code. A configuration that names no dashboard fails
    validation in [schemaToReportParams].  [UpdateReport] returns that
    error and sends nothing.  [CreateReport] drops it: the create
    request goes out with no body, and the diagnostics returned are the
    refusal of the service. *)
Theorem create_sends_despite_validation_error :
  schemaToReportParams (RT := goRuntime) noDashboard
  = inl (errorString "dashboard_id or dashboard_uid should be set")
  /\ CreateReport (RT := goRuntime) (orgMeta (service (storedReport oneDashboard "")))
       {| data := noDashboard; sent := [] |}
     = Returned [FromErr (APIError 400 "bad request data")]
         {| data := noDashboard; sent := [CreateReportRequest None] |}
  /\ UpdateReport (RT := goRuntime) (orgMeta (service (storedReport oneDashboard "")))
       (created noDashboard)
     = Returned [FromErr (errorString "dashboard_id or dashboard_uid should be set")]
         (created noDashboard).
Proof. repeat split; vm_compute; reflexivity. Qed.

(* ===================================================================== *)
(** * Further properties of the translation *)
(* ===================================================================== *)

Section DashboardBinding.
Context {RT : Runtime}.

(** X1. A configuration with an empty [dashboards] list, no
    [dashboard_id] and no [dashboard_uid] is refused by
    [schemaToReportParams] with the dashboard error, whatever its
    schedule: the dashboards are resolved before the schedule is
    translated. *)
Theorem dashboard_identity_required (d : ResourceData.t) :
  ResourceData.dashboards d = [] ->
  ResourceData.dashboard_id d = 0 ->
  ResourceData.dashboard_uid d = "" ->
  schemaToReportParams d = inl (errorString "dashboard_id or dashboard_uid should be set").
Proof.
  intros Hl Hid Huid. unfold schemaToReportParams, setDeprecatedDashboardValues.
  cbv zeta. rewrite Hl, Hid, Huid. reflexivity.
Qed.

(** X2. In the legacy form (empty [dashboards] list) a command that is
    built carries: with a uid, one binding entry keyed by the uid, with
    the legacy time range (the empty pair when none is declared) and no
    deprecated id; with the numeric id only, no binding entry, the id
    in the deprecated slot and the time range in the options. *)
Theorem legacy_binding (d : ResourceData.t) (r : Cmd.t) :
  ResourceData.dashboards d = [] ->
  schemaToReportParams d = inr r ->
  let timeRange :=
    match ResourceData.time_range d with
    | tr :: _ => TimeRangeDTO.mk (TimeRangeBlock.from tr) (TimeRangeBlock.to tr)
    | [] => TimeRangeDTO.empty
    end in
  (ResourceData.dashboard_uid d <> "" ->
   Cmd.Dashboards r =
     [ DashboardDTO.mk (Some (DashboardReportDTO.mk 0 (ResourceData.dashboard_uid d)))
         None (Some timeRange) ]
   /\ Cmd.DashboardID r = 0
   /\ ReportOptionsDTO.TimeRange (Cmd.Options r) = None)
  /\ (ResourceData.dashboard_uid d = "" ->
      Cmd.Dashboards r = []
      /\ Cmd.DashboardID r = ResourceData.dashboard_id d
      /\ ResourceData.dashboard_id d <> 0
      /\ ReportOptionsDTO.TimeRange (Cmd.Options r) = Some timeRange).
Proof.
  intros Hl H. cbv zeta.
  apply schemaToReportParams_steps in H as (base & Hb & Hs).
  rewrite Hl in Hb. simpl in Hb.
  apply setReportFrequency_frame in Hs as (-> & _).
  unfold setDeprecatedDashboardValues in Hb. cbv zeta in Hb.
  destruct (Z.eqb_spec (ResourceData.dashboard_id d) 0) as [Hid | Hid];
    destruct (String.eqb_spec (ResourceData.dashboard_uid d) "") as [Hu | Hu];
    simpl in Hb; try discriminate Hb; injection Hb as <-;
    (split; intros Hu'; try contradiction);
    destruct (length (ResourceData.formats d) =? 0)%nat; repeat split; trivial.
Qed.

End DashboardBinding.

Lemma dashboard_identity_required_witness :
  schemaToReportParams (RT := goRuntime) noDashboard
  = inl (errorString "dashboard_id or dashboard_uid should be set").
Proof.
  apply (dashboard_identity_required (RT := goRuntime) noDashboard); reflexivity.
Defined.

Lemma legacy_binding_witness :
  exists r,
    commandOf (legacyReport [] dailySchedule) = Some r
    /\ Cmd.Dashboards r =
         [ DashboardDTO.mk (Some (DashboardReportDTO.mk 0 "report")) None
             (Some TimeRangeDTO.empty) ].
Proof.
  eexists. split; [vm_compute; reflexivity|].
  apply (proj1 (legacy_binding (RT := goRuntime) (legacyReport [] dailySchedule) _
                  eq_refl ltac:(vm_compute; reflexivity))).
  discriminate.
Defined.

Section ScheduleFields.
Context {RT : Runtime}.

Lemma setReportFrequency_Interval (report r : Cmd.t) (d : ResourceData.t) :
  setReportFrequency report d = inr r ->
  if (ScheduleDTO.Frequency (Cmd.Schedule report) =? reportFrequencyCustom)%string
  then parseCustomReportInterval (ScheduleBlock.custom_interval (ResourceData.schedule_0 d))
       = inr (ScheduleDTO.IntervalAmount (Cmd.Schedule r),
              ScheduleDTO.IntervalFrequency (Cmd.Schedule r))
  else ScheduleDTO.IntervalAmount (Cmd.Schedule r)
       = ScheduleDTO.IntervalAmount (Cmd.Schedule report)
       /\ ScheduleDTO.IntervalFrequency (Cmd.Schedule r)
          = ScheduleDTO.IntervalFrequency (Cmd.Schedule report).
Proof.
  unfold setReportFrequency. cbv zeta. intros H.
  break_result H; inversion H; subst; clear H; simpl; auto.
Qed.

Lemma setReportFrequency_StartDate (report r : Cmd.t) (d : ResourceData.t) :
  setReportFrequency report d = inr r ->
  if negb (ScheduleDTO.Frequency (Cmd.Schedule report) =? reportFrequencyNever)%string
     && negb (ScheduleBlock.start_time (ResourceData.schedule_0 d) =? "")%string
  then exists t, time_Parse (ScheduleBlock.start_time (ResourceData.schedule_0 d)) = inr t
                 /\ ScheduleDTO.StartDate (Cmd.Schedule r) = time.UTC t
  else ScheduleDTO.StartDate (Cmd.Schedule r) = ScheduleDTO.StartDate (Cmd.Schedule report).
Proof.
  unfold setReportFrequency. cbv zeta. intros H.
  break_result H; inversion H; subst; clear H; simpl; eauto.
Qed.

Lemma setReportFrequency_EndDate (report r : Cmd.t) (d : ResourceData.t) :
  setReportFrequency report d = inr r ->
  if negb (ScheduleDTO.Frequency (Cmd.Schedule report) =? reportFrequencyOnce)%string
     && negb (ScheduleDTO.Frequency (Cmd.Schedule report) =? reportFrequencyNever)%string
     && negb (ScheduleBlock.end_time (ResourceData.schedule_0 d) =? "")%string
  then exists t, time_Parse (ScheduleBlock.end_time (ResourceData.schedule_0 d)) = inr t
                 /\ ScheduleDTO.EndDate (Cmd.Schedule r) = time.UTC t
  else ScheduleDTO.EndDate (Cmd.Schedule r) = ScheduleDTO.EndDate (Cmd.Schedule report).
Proof.
  unfold setReportFrequency. cbv zeta. intros H.
  break_result H; inversion H; subst; clear H; simpl; eauto.
Qed.

(** X3. The custom interval on write: with frequency [custom] a command
    is built only if the declared [custom_interval] parses (the empty
    string does not), and its amount and unit are the parsed ones; with
    any other frequency the declared string is not read and the wire
    amount and unit stay unset. *)
Theorem custom_interval_on_write (d : ResourceData.t) (r : Cmd.t) :
  schemaToReportParams d = inr r ->
  let sb := ResourceData.schedule_0 d in
  (ScheduleBlock.frequency sb = reportFrequencyCustom ->
   parseCustomReportInterval (ScheduleBlock.custom_interval sb)
   = inr (ScheduleDTO.IntervalAmount (Cmd.Schedule r),
          ScheduleDTO.IntervalFrequency (Cmd.Schedule r))
   /\ ScheduleBlock.custom_interval sb <> "")
  /\ (ScheduleBlock.frequency sb <> reportFrequencyCustom ->
      ScheduleDTO.IntervalAmount (Cmd.Schedule r) = 0
      /\ ScheduleDTO.IntervalFrequency (Cmd.Schedule r) = "").
Proof.
  intros H. cbv zeta.
  apply schemaToReportParams_schedule in H as (report & Hs & Hsch).
  apply setReportFrequency_Interval in Hs. rewrite Hsch in Hs. simpl in Hs.
  destruct (String.eqb_spec (ScheduleBlock.frequency (ResourceData.schedule_0 d))
              reportFrequencyCustom) as [Hf | Hf]; split; intros Hf'; try contradiction.
  - split; [exact Hs|]. intros He. rewrite He in Hs. discriminate Hs.
  - exact Hs.
Qed.

(** X4. Times on write: a start time is sent unless the frequency is
    [never] or none is declared, an end time unless the frequency is
    [once] or [never] or none is declared; what is sent is the instant
    the declared string parses to, in UTC. *)
Theorem times_sent_in_utc (d : ResourceData.t) (r : Cmd.t) :
  schemaToReportParams d = inr r ->
  let sb := ResourceData.schedule_0 d in
  (ScheduleBlock.frequency sb <> reportFrequencyNever ->
   ScheduleBlock.start_time sb <> "" ->
   exists t, time_Parse (ScheduleBlock.start_time sb) = inr t
             /\ ScheduleDTO.StartDate (Cmd.Schedule r) = time.UTC t)
  /\ (ScheduleBlock.frequency sb = reportFrequencyNever \/ ScheduleBlock.start_time sb = "" ->
      ScheduleDTO.StartDate (Cmd.Schedule r) = time.zero)
  /\ (ScheduleBlock.frequency sb <> reportFrequencyOnce ->
      ScheduleBlock.frequency sb <> reportFrequencyNever ->
      ScheduleBlock.end_time sb <> "" ->
      exists t, time_Parse (ScheduleBlock.end_time sb) = inr t
                /\ ScheduleDTO.EndDate (Cmd.Schedule r) = time.UTC t)
  /\ (ScheduleBlock.frequency sb = reportFrequencyOnce
      \/ ScheduleBlock.frequency sb = reportFrequencyNever
      \/ ScheduleBlock.end_time sb = "" ->
      ScheduleDTO.EndDate (Cmd.Schedule r) = time.zero).
Proof.
  intros H. cbv zeta.
  apply schemaToReportParams_schedule in H as (report & Hs & Hsch).
  pose proof (setReportFrequency_StartDate _ _ _ Hs) as Hstart.
  pose proof (setReportFrequency_EndDate _ _ _ Hs) as Hend.
  rewrite Hsch in Hstart, Hend. simpl in Hstart, Hend.
  destruct (String.eqb_spec (ScheduleBlock.frequency (ResourceData.schedule_0 d))
              reportFrequencyNever) as [Hn | Hn];
    destruct (String.eqb_spec (ScheduleBlock.frequency (ResourceData.schedule_0 d))
                reportFrequencyOnce) as [Ho | Ho];
    destruct (String.eqb_spec (ScheduleBlock.start_time (ResourceData.schedule_0 d)) "")
      as [Hse | Hse];
    destruct (String.eqb_spec (ScheduleBlock.end_time (ResourceData.schedule_0 d)) "")
      as [Hee | Hee];
    simpl in Hstart, Hend;
    (split; [|split; [|split]]); intros; trivial;
    try contradiction;
    repeat match goal with
           | H : _ \/ _ |- _ => destruct H
           end;
    try contradiction; trivial.
Qed.

End ScheduleFields.

Lemma custom_interval_on_write_witness :
  exists r,
    commandOf (legacyReport [] customSchedule) = Some r
    /\ parseCustomReportInterval "3 days"
       = inr (ScheduleDTO.IntervalAmount (Cmd.Schedule r),
              ScheduleDTO.IntervalFrequency (Cmd.Schedule r))
    /\ "3 days" <> "".
Proof.
  eexists. split; [vm_compute; reflexivity|].
  apply (proj1 (custom_interval_on_write (RT := goRuntime)
                  (legacyReport [] customSchedule) _ ltac:(vm_compute; reflexivity))).
  reflexivity.
Defined.

Lemma times_sent_in_utc_witness :
  exists r,
    commandOf (legacyReport [] dailySchedule) = Some r
    /\ exists t,
        time_Parse (Runtime := goRuntime) "2024-03-01T08:00:00+01:00" = inr t
        /\ ScheduleDTO.StartDate (Cmd.Schedule r) = time.UTC t.
Proof.
  eexists. split; [vm_compute; reflexivity|].
  apply (proj1 (times_sent_in_utc (RT := goRuntime)
                  (legacyReport [] dailySchedule) _ ltac:(vm_compute; reflexivity)));
    discriminate.
Defined.

Lemma UpdateReport_validation_error_witness :
  UpdateReport (RT := goRuntime) (orgMeta (service (storedReport oneDashboard "")))
    (created noDashboard)
  = Returned [FromErr (errorString "dashboard_id or dashboard_uid should be set")]
      (created noDashboard).
Proof.
  apply (UpdateReport_validation_error (RT := goRuntime)
           (orgMeta (service (storedReport oneDashboard ""))) (created noDashboard) 7);
    reflexivity.
Defined.

(* ===================================================================== *)
(** * The custom interval, parsed and formatted again *)
(* ===================================================================== *)

Section ReadPath.
Context {RT : Runtime}.

(** The schedule map of a read, key by key. *)
Lemma readSchedule_fields (s : ScheduleDTO.t) (m : ScheduleMap.t) :
  readSchedule s = inr m ->
  ScheduleMap.frequency m = ScheduleDTO.Frequency s
  /\ ScheduleMap.timezone m = ScheduleDTO.TimeZone s
  /\ ScheduleMap.workdays_only m = ScheduleDTO.WorkdaysOnly s
  /\ ScheduleMap.last_day_of_month m
     = (if (ScheduleDTO.DayOfMonth s =? "last")%string then Some true else None)
  /\ ScheduleMap.custom_interval m
     = (if negb (ScheduleDTO.IntervalAmount s =? 0)
           && negb (ScheduleDTO.IntervalFrequency s =? "")%string
        then Some (fmt.Sprintf_d_s (ScheduleDTO.IntervalAmount s)
                                   (ScheduleDTO.IntervalFrequency s))
        else None).
Proof.
  unfold readSchedule. cbv zeta. intros H.
  break_result H; inversion H; subst; clear H; repeat split; reflexivity.
Qed.

Lemma unit_nonempty (unit : string) : In unit intervalUnits -> (unit =? "")%string = false.
Proof. intros [<- | [<- | [<- | [<- | []]]]]; reflexivity. Qed.

(** Only the canonical spelling is reproduced: an accepted string with
    an amount [n >= 0] that comes back from ["%d %s"] as it was is made
    of the canonical numeral of [n], a space and the unit. *)
Lemma reproduced_is_canonical (s unit : string) (n : Z) :
  parseCustomReportInterval s = inr (n, unit) ->
  0 <= n ->
  fmt.Sprintf_d_s n unit = s ->
  exists ds,
    s = (ds ++ " " ++ unit)%string
    /\ canonicalNumeral ds = true
    /\ strconv.parseDigits 0 ds = Some n.
Proof.
  intros _ Hn Hs. destruct (formatUint_is_canonical n Hn) as [Hc Hp].
  exists (strconv.formatUint n). repeat split; trivial.
  rewrite <- Hs. unfold fmt.Sprintf_d_s, strconv.FormatInt.
  destruct (Z.ltb_spec n 0); [lia | reflexivity].
Qed.

(** C4, amended. For every interval string [<n> <unit>] in which [<n>]
    is the canonical decimal numeral of the amount [n] (digits only: no
    sign, no leading zero), [n] fits Go's [int] and [unit] is one of
    hours, days, weeks, months: [parseCustomReportInterval] returns
    [(n, unit)], and formatting that pair with ["%d %s"] gives the
    original string back.  The read path formats the pair only when the
    amount is not 0: the schedule map it builds from a wire schedule
    with that amount and unit has the original string under
    [custom_interval] when [n <> 0], and no such key when [n = 0]. *)
Theorem interval_roundtrip (ds unit : string) (n : Z) :
  canonicalNumeral ds = true ->
  strconv.parseDigits 0 ds = Some n ->
  n <= strconv.MaxInt ->
  In unit intervalUnits ->
  parseCustomReportInterval (ds ++ " " ++ unit) = inr (n, unit)
  /\ fmt.Sprintf_d_s n unit = (ds ++ " " ++ unit)%string
  /\ (forall schedule m,
         ScheduleDTO.IntervalAmount schedule = n ->
         ScheduleDTO.IntervalFrequency schedule = unit ->
         readSchedule schedule = inr m ->
         ScheduleMap.custom_interval m
         = if n =? 0 then None else Some (ds ++ " " ++ unit)%string).
Proof.
  intros Hc Hp Hmax Hu.
  pose proof (canonical_nonneg _ _ Hp) as Hn.
  assert (fmt.Sprintf_d_s n unit = (ds ++ " " ++ unit)%string) as Hformat.
  { unfold fmt.Sprintf_d_s, strconv.FormatInt.
    destruct (Z.ltb_spec n 0); [lia|].
    now rewrite (formatUint_canonical ds n Hc Hp). }
  split; [now apply canonical_interval_parses|]. split; [exact Hformat|].
  intros schedule m Hamount Hunit Hm.
  apply readSchedule_fields in Hm as (_ & _ & _ & _ & Hci).
  rewrite Hci, Hamount, Hunit, (unit_nonempty _ Hu), Hformat.
  now destruct (n =? 0).
Qed.

End ReadPath.

Lemma interval_roundtrip_witness :
  parseCustomReportInterval "3 days" = inr (3, "days")
  /\ fmt.Sprintf_d_s 3 "days" = "3 days"
  /\ exists m,
      readSchedule (RT := goRuntime) customWire = inr m
      /\ ScheduleMap.custom_interval m = Some "3 days".
Proof.
  destruct (interval_roundtrip (RT := goRuntime) "3" "days" 3 eq_refl eq_refl
              ltac:(unfold strconv.MaxInt; lia) ltac:(simpl; auto))
    as (Hparse & Hformat & Hread).
  split; [exact Hparse|]. split; [exact Hformat|].
  eexists. split; [vm_compute; reflexivity|].
  apply (Hread customWire); [reflexivity | reflexivity | vm_compute; reflexivity].
Defined.

(** C4, as the specification states it, fails.  ["007 days"] is a valid
    interval string with the unit days and the amount [7 >= 0]; parsed
    and formatted again it is ["7 days"], not the original string.  And
    ["0 days"] is valid with the amount 0, for which the read path
    formats nothing: the schedule map has no [custom_interval]. *)
Lemma interval_not_reproduced :
  parseCustomReportInterval "007 days" = inr (7, "days")
  /\ fmt.Sprintf_d_s 7 "days" = "7 days"
  /\ String.eqb "7 days" "007 days" = false
  /\ parseCustomReportInterval "0 days" = inr (0, "days")
  /\ option_map ScheduleMap.custom_interval
       (valueOf (readSchedule (RT := goRuntime) (ScheduleDTO.with_Interval 0 "days" customWire)))
     = Some None.
Proof. repeat split; vm_compute; reflexivity. Qed.

(* ===================================================================== *)
(** * Recipients, joined and split *)
(* ===================================================================== *)

Section Recipients.

Lemma Join_cons (e e' : string) (rest : list string) (sep : string) :
  strings.Join (e :: e' :: rest) sep = (e ++ sep ++ strings.Join (e' :: rest) sep)%string.
Proof. reflexivity. Qed.

Lemma Split_Join (elems : list string) (sep : ascii) :
  elems <> [] ->
  Forall (fun e => strings.lacks sep e = true) elems ->
  strings.Split (strings.Join elems (String sep "")) sep = elems.
Proof.
  induction elems as [|e rest IH]; [contradiction|]. intros _ Hall.
  inversion Hall as [|? ? He Hrest]; subst.
  destruct rest as [|e' rest].
  - simpl. now apply Split_lacks.
  - rewrite Join_cons. simpl append.
    rewrite (Split_app e _ sep He). f_equal. apply IH; [discriminate | exact Hrest].
Qed.

(** X7. Recipients: the list is joined with commas on write and split
    at commas on read; for a non-empty list of addresses without a
    comma, splitting what was joined gives the list back. *)
Theorem recipients_round_trip (d : ResourceData.t) :
  ResourceData.recipients d <> [] ->
  Forall (fun e => strings.lacks "," e = true) (ResourceData.recipients d) ->
  strings.Split (Cmd.Recipients (createReportSchema d)) "," = ResourceData.recipients d.
Proof.
  intros Hne Hall. simpl. unfold common.ListToStringSlice. now apply Split_Join.
Qed.

Lemma recipients_round_trip_witness :
  strings.Split (Cmd.Recipients (createReportSchema (legacyReport [] dailySchedule))) ","
  = ["some@email.com"; "other@email.com"].
Proof.
  apply (recipients_round_trip (legacyReport [] dailySchedule)).
  - discriminate.
  - repeat constructor.
Defined.

End Recipients.

(* ===================================================================== *)
(** * The interval grammar: reading back what was written *)
(* ===================================================================== *)

Section IntervalReparse.

Lemma formatUint_nonempty (n : Z) : strconv.formatUint n <> "".
Proof.
  rewrite formatUint_unfold. destruct (n <? 10); [discriminate|].
  destruct (strconv.formatUint (n / 10)); discriminate.
Qed.

(** What [%d] prints for an [int] is an integer [strconv.Atoi] reads
    back, negative ones and the smallest one included. *)
Lemma FormatInt_goInteger (n : Z) :
  strconv.MinInt <= n <= strconv.MaxInt -> goInteger (strconv.FormatInt n) n.
Proof.
  intros Hr. unfold strconv.FormatInt. destruct (Z.ltb_spec n 0) as [Hneg | Hpos].
  - exists "-", (strconv.formatUint (- n)), (- n). repeat split; simpl; auto.
    + apply formatUint_nonempty.
    + apply parseDigits_formatUint. lia.
    + lia.
    + lia.
    + lia.
  - exists "", (strconv.formatUint n), n. repeat split; simpl; auto.
    + apply formatUint_nonempty.
    + apply parseDigits_formatUint. lia.
    + lia.
    + lia.
Qed.

(** X8. Whatever string [parseCustomReportInterval] accepts -- canonical
    or not, negative amounts included -- the string the read path
    formats from the parsed amount and unit is accepted again, with the
    same amount and unit: translating what was read back sends the same
    interval. *)
Theorem interval_reparse (s : string) (amount : Z) (unit : string) :
  parseCustomReportInterval s = inr (amount, unit) ->
  parseCustomReportInterval (fmt.Sprintf_d_s amount unit) = inr (amount, unit).
Proof.
  intros H. apply parse_accepted in H as (tok & _ & Hi & Hu).
  apply parse_accepts. exists (strconv.FormatInt amount). repeat split; trivial.
  apply FormatInt_goInteger.
  destruct Hi as (sign & ds & un & _ & _ & _ & _ & _ & Hr). exact Hr.
Qed.

Lemma interval_reparse_witness :
  parseCustomReportInterval (fmt.Sprintf_d_s 7 "days") = inr (7, "days").
Proof.
  apply (interval_reparse "007 days" 7 "days"). vm_compute. reflexivity.
Defined.

End IntervalReparse.

(* ===================================================================== *)
(** * When the translation succeeds, and how it fails *)
(* ===================================================================== *)

Section TranslationOutcome.
Context {RT : Runtime}.

(** The schedule step succeeds exactly when every string it reads for
    the frequency of the command can be read. *)
Lemma setReportFrequency_succeeds_iff (report : Cmd.t) (d : ResourceData.t) :
  let frequency := ScheduleDTO.Frequency (Cmd.Schedule report) in
  let sb := ResourceData.schedule_0 d in
  (exists r, setReportFrequency report d = inr r)
  <-> (frequency <> reportFrequencyNever -> ScheduleBlock.start_time sb <> "" ->
       exists t, time_Parse (ScheduleBlock.start_time sb) = inr t)
      /\ (frequency <> reportFrequencyOnce -> frequency <> reportFrequencyNever ->
          ScheduleBlock.end_time sb <> "" ->
          exists t, time_Parse (ScheduleBlock.end_time sb) = inr t)
      /\ (frequency = reportFrequencyCustom ->
          exists amount unit,
            parseCustomReportInterval (ScheduleBlock.custom_interval sb)
            = inr (amount, unit)).
Proof.
  cbv zeta. unfold setReportFrequency. cbv zeta.
  destruct (String.eqb_spec (ScheduleDTO.Frequency (Cmd.Schedule report))
              reportFrequencyNever) as [Hn | Hn];
    destruct (String.eqb_spec (ScheduleDTO.Frequency (Cmd.Schedule report))
                reportFrequencyOnce) as [Ho | Ho];
    destruct (String.eqb_spec (ScheduleDTO.Frequency (Cmd.Schedule report))
                reportFrequencyCustom) as [Hc | Hc];
    destruct (String.eqb_spec (ScheduleBlock.start_time (ResourceData.schedule_0 d)) "")
      as [Hs | Hs];
    destruct (String.eqb_spec (ScheduleBlock.end_time (ResourceData.schedule_0 d)) "")
      as [He | He];
    destruct (time_Parse (ScheduleBlock.start_time (ResourceData.schedule_0 d)))
      as [es | ts];
    destruct (time_Parse (ScheduleBlock.end_time (ResourceData.schedule_0 d)))
      as [ee | te];
    destruct (parseCustomReportInterval
                (ScheduleBlock.custom_interval (ResourceData.schedule_0 d)))
      as [ec | [amount unit]];
    cbn [negb andb];
    (split;
     [ intros [r H]; try discriminate H;
       (split; [|split]); intros; try contradiction; eauto
     | intros (H1 & H2 & H3);
       try solve [eexists; reflexivity];
       exfalso;
       first [ destruct H1 as [t Ht]; [assumption | assumption | discriminate Ht]
             | destruct H2 as [t Ht]; [assumption | assumption | assumption | discriminate Ht]
             | destruct H3 as (a & u & Hp); [assumption | discriminate Hp] ] ]).
Qed.

(** The error of the schedule step is that of the first string, in the
    order start time, end time, custom interval, that cannot be read. *)
Lemma setReportFrequency_error (report : Cmd.t) (d : ResourceData.t) (err : error) :
  let frequency := ScheduleDTO.Frequency (Cmd.Schedule report) in
  let sb := ResourceData.schedule_0 d in
  let startRead :=
    frequency = reportFrequencyNever \/ ScheduleBlock.start_time sb = ""
    \/ exists t, time_Parse (ScheduleBlock.start_time sb) = inr t in
  let endRead :=
    frequency = reportFrequencyOnce \/ frequency = reportFrequencyNever
    \/ ScheduleBlock.end_time sb = ""
    \/ exists t, time_Parse (ScheduleBlock.end_time sb) = inr t in
  setReportFrequency report d = inl err ->
  (frequency <> reportFrequencyNever /\ ScheduleBlock.start_time sb <> ""
   /\ time_Parse (ScheduleBlock.start_time sb) = inl err)
  \/ (startRead /\ frequency <> reportFrequencyOnce /\ frequency <> reportFrequencyNever
      /\ ScheduleBlock.end_time sb <> ""
      /\ time_Parse (ScheduleBlock.end_time sb) = inl err)
  \/ (startRead /\ endRead /\ frequency = reportFrequencyCustom /\ err = parseErr
      /\ parseCustomReportInterval (ScheduleBlock.custom_interval sb) = inl parseErr).
Proof.
  cbv zeta. unfold setReportFrequency. cbv zeta.
  destruct (String.eqb_spec (ScheduleDTO.Frequency (Cmd.Schedule report))
              reportFrequencyNever) as [Hn | Hn];
    destruct (String.eqb_spec (ScheduleDTO.Frequency (Cmd.Schedule report))
                reportFrequencyOnce) as [Ho | Ho];
    destruct (String.eqb_spec (ScheduleDTO.Frequency (Cmd.Schedule report))
                reportFrequencyCustom) as [Hc | Hc];
    destruct (String.eqb_spec (ScheduleBlock.start_time (ResourceData.schedule_0 d)) "")
      as [Hs | Hs];
    destruct (String.eqb_spec (ScheduleBlock.end_time (ResourceData.schedule_0 d)) "")
      as [He | He];
    destruct (time_Parse (ScheduleBlock.start_time (ResourceData.schedule_0 d)))
      as [es | ts] eqn:Hps;
    destruct (time_Parse (ScheduleBlock.end_time (ResourceData.schedule_0 d)))
      as [ee | te] eqn:Hpe;
    destruct (parseCustomReportInterval
                (ScheduleBlock.custom_interval (ResourceData.schedule_0 d)))
      as [ec | [amount unit]] eqn:Hpc;
    cbn [negb andb]; intros H; try discriminate H; injection H as <-;
    try (apply parse_error_uniform in Hpc; subst ec);
    first [ left; repeat split; trivial; fail
          | right; left; repeat split; eauto 6; fail
          | right; right; repeat split; eauto 6 ].
Qed.

(** X9. [schemaToReportParams] builds a command exactly when the
    configuration names a dashboard (a non-empty [dashboards] list, a
    [dashboard_id] or a [dashboard_uid]) and every string the schedule
    step reads for the declared frequency can be read: the start time
    unless the frequency is [never], the end time unless it is [once] or
    [never] (an empty time is not read), the custom interval when it is
    [custom]. *)
Theorem translation_succeeds_iff (d : ResourceData.t) :
  let sb := ResourceData.schedule_0 d in
  let frequency := ScheduleBlock.frequency sb in
  (exists r, schemaToReportParams d = inr r)
  <-> (ResourceData.dashboards d <> [] \/ ResourceData.dashboard_id d <> 0
       \/ ResourceData.dashboard_uid d <> "")
      /\ (frequency <> reportFrequencyNever -> ScheduleBlock.start_time sb <> "" ->
          exists t, time_Parse (ScheduleBlock.start_time sb) = inr t)
      /\ (frequency <> reportFrequencyOnce -> frequency <> reportFrequencyNever ->
          ScheduleBlock.end_time sb <> "" ->
          exists t, time_Parse (ScheduleBlock.end_time sb) = inr t)
      /\ (frequency = reportFrequencyCustom ->
          exists amount unit,
            parseCustomReportInterval (ScheduleBlock.custom_interval sb)
            = inr (amount, unit)).
Proof.
  cbv zeta. unfold schemaToReportParams, setDeprecatedDashboardValues,
              common.SetToStringSlice. cbv zeta.
  destruct (ResourceData.dashboards d) as [|b bs];
    destruct (Z.eqb_spec (ResourceData.dashboard_id d) 0) as [Hid | Hid];
    destruct (String.eqb_spec (ResourceData.dashboard_uid d) "") as [Hu | Hu];
    destruct (length (ResourceData.formats d) =? 0)%nat;
    cbn [length Nat.ltb Nat.leb andb];
    try (split;
         [ intros [r H]; discriminate H
         | intros ([H | [H | H]] & _); contradiction ]);
    rewrite setReportFrequency_succeeds_iff; simpl;
    (split; [intros H; split; [|exact H] | intros [_ H]; exact H]);
    first [ left; discriminate | right; left; assumption | right; right; assumption ].
Qed.

(** X10. When [schemaToReportParams] fails, its error is the first one
    met in this order: the dashboard error when the configuration names
    no dashboard; else the parse error of the start time; else the
    parse error of the end time; else the grammar error of the custom
    interval.  Each is met only where the field is read for the declared
    frequency. *)
Theorem translation_error_order (d : ResourceData.t) (err : error) :
  let sb := ResourceData.schedule_0 d in
  let frequency := ScheduleBlock.frequency sb in
  let named :=
    ResourceData.dashboards d <> [] \/ ResourceData.dashboard_id d <> 0
    \/ ResourceData.dashboard_uid d <> "" in
  let startRead :=
    frequency = reportFrequencyNever \/ ScheduleBlock.start_time sb = ""
    \/ exists t, time_Parse (ScheduleBlock.start_time sb) = inr t in
  let endRead :=
    frequency = reportFrequencyOnce \/ frequency = reportFrequencyNever
    \/ ScheduleBlock.end_time sb = ""
    \/ exists t, time_Parse (ScheduleBlock.end_time sb) = inr t in
  schemaToReportParams d = inl err ->
  (~ named /\ err = errorString "dashboard_id or dashboard_uid should be set")
  \/ (named /\ frequency <> reportFrequencyNever /\ ScheduleBlock.start_time sb <> ""
      /\ time_Parse (ScheduleBlock.start_time sb) = inl err)
  \/ (named /\ startRead /\ frequency <> reportFrequencyOnce
      /\ frequency <> reportFrequencyNever /\ ScheduleBlock.end_time sb <> ""
      /\ time_Parse (ScheduleBlock.end_time sb) = inl err)
  \/ (named /\ startRead /\ endRead /\ frequency = reportFrequencyCustom
      /\ err = parseErr
      /\ parseCustomReportInterval (ScheduleBlock.custom_interval sb) = inl parseErr).
Proof.
  cbv zeta. unfold schemaToReportParams, setDeprecatedDashboardValues,
              common.SetToStringSlice. cbv zeta.
  destruct (ResourceData.dashboards d) as [|b bs];
    destruct (Z.eqb_spec (ResourceData.dashboard_id d) 0) as [Hid | Hid];
    destruct (String.eqb_spec (ResourceData.dashboard_uid d) "") as [Hu | Hu];
    destruct (length (ResourceData.formats d) =? 0)%nat;
    cbn [length Nat.ltb Nat.leb andb];
    intros H;
    try (injection H as <-; left;
         split; [intros [Hd | [Hd | Hd]]; congruence | reflexivity]);
    apply setReportFrequency_error in H; simpl in H;
    right;
    (destruct H as [H | [H | H]]; [ left | right; left | right; right ]);
    (split;
     [ first [ left; discriminate | right; left; assumption | right; right; assumption ]
     | exact H ]).
Qed.

End TranslationOutcome.

Lemma translation_error_order_witness :
  exists err,
    schemaToReportParams (RT := goRuntime) (legacyReport [] badStartSchedule) = inl err
    /\ time_Parse (Runtime := goRuntime) "tomorrow" = inl err.
Proof.
  eexists. split; [vm_compute; reflexivity|].
  destruct (translation_error_order (RT := goRuntime)
              (legacyReport [] badStartSchedule) _ eq_refl)
    as [[Hn _] | [H | [H | H]]].
  - exfalso. apply Hn. right. right. discriminate.
  - apply H.
  - destruct H as (_ & _ & _ & _ & He & _). exfalso. apply He. reflexivity.
  - destruct H as (_ & _ & _ & Hc & _). discriminate Hc.
Defined.

(* ===================================================================== *)
(** * Fields that the frequency makes irrelevant *)
(* ===================================================================== *)

Section EligibleFields.
Context {RT : Runtime}.

Lemma setReportFrequency_eligible (report : Cmd.t) (d d' : ResourceData.t) :
  ScheduleBlock.frequency (ResourceData.schedule_0 d)
  = ScheduleDTO.Frequency (Cmd.Schedule report) ->
  ResourceData.schedule_0 d' = eligibleSchedule (ResourceData.schedule_0 d) ->
  setReportFrequency report d' = setReportFrequency report d.
Proof.
  intros Hf Hd'. unfold setReportFrequency. cbv zeta. rewrite Hd'.
  unfold eligibleSchedule. cbv zeta. cbn [ScheduleBlock.start_time
    ScheduleBlock.end_time ScheduleBlock.workdays_only ScheduleBlock.custom_interval
    ScheduleBlock.last_day_of_month ScheduleBlock.frequency]. rewrite Hf.
  unfold reportWorkdaysOnlyConfigAllowed.
  destruct (ScheduleDTO.Frequency (Cmd.Schedule report) =? reportFrequencyNever)%string;
    destruct (ScheduleDTO.Frequency (Cmd.Schedule report) =? reportFrequencyOnce)%string;
    destruct (ScheduleDTO.Frequency (Cmd.Schedule report) =? reportFrequencyMonthly)%string;
    destruct (ScheduleDTO.Frequency (Cmd.Schedule report) =? reportFrequencyCustom)%string;
    destruct (ScheduleDTO.Frequency (Cmd.Schedule report) =? reportFrequencyHourly)%string;
    destruct (ScheduleDTO.Frequency (Cmd.Schedule report) =? reportFrequencyDaily)%string;
    cbn [negb andb orb]; reflexivity.
Qed.

(** Everything but the schedule is read from the same attributes. *)
Lemma schemaToReportParams_schedule_only (d d' : ResourceData.t) :
  d' = ResourceData.Set_schedule (ResourceData.schedule d') d ->
  ScheduleBlock.frequency (ResourceData.schedule_0 d')
  = ScheduleBlock.frequency (ResourceData.schedule_0 d) ->
  ScheduleBlock.timezone (ResourceData.schedule_0 d')
  = ScheduleBlock.timezone (ResourceData.schedule_0 d) ->
  (forall report,
      ScheduleDTO.Frequency (Cmd.Schedule report)
      = ScheduleBlock.frequency (ResourceData.schedule_0 d) ->
      setReportFrequency report d' = setReportFrequency report d) ->
  schemaToReportParams d' = schemaToReportParams d.
Proof.
  intros Hd' Hf Htz Hstep.
  unfold schemaToReportParams, setDeprecatedDashboardValues, common.SetToStringSlice,
    createReportSchema. cbv zeta. rewrite Hf, Htz. rewrite Hd'.
  cbn [ResourceData.Set_schedule ResourceData.dashboards ResourceData.formats
       ResourceData.dashboard_id ResourceData.dashboard_uid ResourceData.time_range
       ResourceData.name ResourceData.include_dashboard_link ResourceData.include_table_csv
       ResourceData.message ResourceData.layout ResourceData.orientation
       ResourceData.recipients ResourceData.reply_to ResourceData.scale_factor
       ResourceData.state ResourceData.template_vars].
  rewrite <- Hd'.
  destruct (0 <? length (ResourceData.dashboards d))%nat;
    [|destruct ((ResourceData.dashboard_id d =? 0) && (ResourceData.dashboard_uid d =? "")%string);
      [reflexivity|destruct (ResourceData.dashboard_uid d =? "")%string]];
    destruct (length (ResourceData.formats d) =? 0)%nat;
    apply Hstep; reflexivity.
Qed.

(** X11. The command depends on the declared schedule only through the
    fields its frequency is eligible for: clearing the start time under
    [never], the end time under [once] and [never], the workdays flag
    outside hourly, daily and custom, the custom interval outside
    [custom] and the last-day flag outside [monthly] changes neither the
    command [schemaToReportParams] builds nor the error it returns. *)
Theorem ineligible_fields_ignored (d : ResourceData.t) :
  schemaToReportParams
    (ResourceData.Set_schedule [eligibleSchedule (ResourceData.schedule_0 d)] d)
  = schemaToReportParams d.
Proof.
  apply schemaToReportParams_schedule_only.
  - destruct d; reflexivity.
  - destruct d; reflexivity.
  - destruct d; reflexivity.
  - intros report Hf. apply setReportFrequency_eligible.
    + now rewrite Hf.
    + destruct d; reflexivity.
Qed.

(** X12. The diff on [workdays_only] is suppressed only where the flag
    is not sent: whenever the [DiffSuppressFunc] of
    [schedule.0.workdays_only] answers true for a configuration,
    declaring the other value of the flag changes nothing in what
    [schemaToReportParams] returns. *)
Theorem suppressed_workdays_only_is_unsent (d : ResourceData.t) (flag : bool) :
  workdays_only_DiffSuppressFunc d = true ->
  schemaToReportParams (with_workdays_only flag d) = schemaToReportParams d.
Proof.
  unfold workdays_only_DiffSuppressFunc. intros Hsup. apply negb_true_iff in Hsup.
  apply schemaToReportParams_schedule_only.
  - destruct d; reflexivity.
  - destruct d; reflexivity.
  - destruct d; reflexivity.
  - intros report Hf. unfold setReportFrequency. cbv zeta. rewrite Hf, Hsup.
    destruct d; reflexivity.
Qed.

End EligibleFields.

Lemma suppressed_workdays_only_is_unsent_witness :
  schemaToReportParams (RT := goRuntime)
    (with_workdays_only false (legacyReport [] monthlySchedule))
  = schemaToReportParams (RT := goRuntime) (legacyReport [] monthlySchedule).
Proof.
  apply (suppressed_workdays_only_is_unsent (RT := goRuntime)
           (legacyReport [] monthlySchedule) false).
  reflexivity.
Defined.

(* ===================================================================== *)
(** * Suppressed start times stay suppressed *)
(* ===================================================================== *)

Section StartTimeStability.
Context {RT : Runtime}.

(** X13. The start-time equivalence is stable as time passes: a pair of
    values whose difference is suppressed at some instant is suppressed
    at every later one (the current time only ever enters through
    [oldParsed.Before(time.Now())]); and a value is always equivalent to
    itself. *)
Theorem start_time_suppression_stable (now later : time.Time) (old new : string) :
  time.abs now <= time.abs later ->
  (start_time_DiffSuppressFunc now old new = true ->
   start_time_DiffSuppressFunc later old new = true)
  /\ start_time_DiffSuppressFunc now old old = true.
Proof.
  intros Hle. unfold start_time_DiffSuppressFunc, time.Before, time.Equal. cbv zeta.
  split.
  - destruct (new =? "")%string; cbn [andb]; [|trivial].
    destruct (Z.ltb_spec (time.abs (parsedOrZero old)) (time.abs now)) as [Hlt | Hge].
    + intros _.
      destruct (Z.ltb_spec (time.abs (parsedOrZero old)) (time.abs later)); [reflexivity | lia].
    + intros Heq.
      destruct (time.abs (parsedOrZero old) <? time.abs later); [reflexivity | exact Heq].
  - rewrite Z.eqb_refl. now destruct (_ && _).
Qed.

End StartTimeStability.

Lemma start_time_suppression_stable_witness :
  start_time_DiffSuppressFunc (RT := goRuntime) (time.Date 2025 1 1 0 0 0 0)
    "2024-03-01T07:00:00Z" "" = true.
Proof.
  apply (proj1 (start_time_suppression_stable (RT := goRuntime)
                  (time.Date 2024 6 1 0 0 0 0) (time.Date 2025 1 1 0 0 0 0)
                  "2024-03-01T07:00:00Z" "" ltac:(vm_compute; discriminate))).
  vm_compute. reflexivity.
Defined.

(* ===================================================================== *)
(** * What a read needs, writes and leaves alone *)
(* ===================================================================== *)

Section ReadOutcome.
Context {RT : Runtime}.

Lemma ReadReport_success (meta : Meta) (w w' : World) (id : Z) (payload : ConfigDTO.t) :
  ParseInt (ExistingID meta (ResourceData.Id (data w))) = inr id ->
  GetReport_response (Reports meta) id = inr payload ->
  ReadReport meta w = Returned [] w' ->
  readable payload
  /\ ResourceData.recipients (data w') = strings.Split (ConfigDTO.Recipients payload) ","
  /\ (forall dashboards0 rest timeRange,
         ConfigDTO.Dashboards payload = dashboards0 :: rest ->
         DashboardDTO.TimeRange dashboards0 = Some timeRange ->
         TimeRangeDTO.From timeRange = "" ->
         ResourceData.time_range (data w') = ResourceData.time_range (data w)).
Proof.
  intros Hid Hget. unfold ReadReport. run_op. rewrite Hid. run_op.
  unfold CheckReadError. rewrite Hget. run_op.
  destruct (ConfigDTO.Dashboards payload) as [|dashboards0 rest] eqn:Hds; run_op;
    [intros H; discriminate H|].
  destruct (DashboardDTO.Dashboard dashboards0) as [dashboard|] eqn:Hd; run_op;
    [|intros H; discriminate H].
  destruct (ConfigDTO.Options payload) as [options|] eqn:Ho; run_op;
    [|intros H; discriminate H].
  destruct (0 <? length _)%nat; run_op;
    (destruct (DashboardDTO.TimeRange dashboards0) as [timeRange|] eqn:Htr; run_op;
     [|intros H; discriminate H]);
    (destruct (String.eqb_spec (TimeRangeDTO.From timeRange) "") as [Hfrom | Hfrom];
     cbn [negb]; run_op;
     (destruct (ConfigDTO.Schedule payload) as [schedule|] eqn:Hsch; run_op;
      [|intros H; discriminate H]);
     (destruct (readSchedule schedule) as [err|m] eqn:Hm; run_op;
      [intros H; discriminate H|]);
     (destruct (scheduleBlockOf m) as [err|block]; run_op);
     intros [= <-];
     (split; [exists dashboards0, rest, dashboard, timeRange, options, schedule, m;
              repeat split; trivial|]);
     (split; [reflexivity|]);
     intros d0 rest0 tr0 [= <- <-] Htr0 Hfrom0;
     rewrite Htr in Htr0; injection Htr0 as <-;
     try contradiction; reflexivity).
Qed.

(** X14. Given an id that parses and an entity the service returns,
    [ReadReport] comes back without diagnostics exactly when the entity
    has a zeroth dashboard entry with its dashboard and time range,
    options and a schedule set, and the start and end dates of the
    schedule print to strings that parse. *)
Theorem ReadReport_succeeds_iff
    (meta : Meta) (w : World) (id : Z) (payload : ConfigDTO.t) :
  ParseInt (ExistingID meta (ResourceData.Id (data w))) = inr id ->
  GetReport_response (Reports meta) id = inr payload ->
  (exists w', ReadReport meta w = Returned [] w') <-> readable payload.
Proof.
  intros Hid Hget. split.
  - intros [w' H]. now apply (ReadReport_success meta w w' id payload Hid Hget).
  - intros (dashboards0 & rest & dashboard & timeRange & options & schedule & m
            & Hds & Hd & Htr & Ho & Hsch & Hm).
    unfold ReadReport. run_op. rewrite Hid. run_op.
    unfold CheckReadError. rewrite Hget. run_op.
    rewrite Hds. run_op. rewrite Hd. run_op. rewrite Ho. run_op.
    destruct (0 <? length _)%nat; run_op; rewrite Htr; run_op;
      destruct (negb (TimeRangeDTO.From timeRange =? "")%string); run_op;
      rewrite Hsch; run_op; rewrite Hm; run_op;
      destruct (scheduleBlockOf m); run_op; eexists; reflexivity.
Qed.

(** X15. Empty values on read.  A read that succeeds stores the
    recipients as the pieces of the wire string between commas, which is
    never the empty list: an empty wire string reads back as the one
    empty recipient.  And when the time range of the zeroth entry has an
    empty [From], the [time_range] attribute is not written: it keeps
    the value it had. *)
Theorem read_of_empty_values
    (meta : Meta) (w w' : World) (id : Z) (payload : ConfigDTO.t) :
  ParseInt (ExistingID meta (ResourceData.Id (data w))) = inr id ->
  GetReport_response (Reports meta) id = inr payload ->
  ReadReport meta w = Returned [] w' ->
  ResourceData.recipients (data w') = strings.Split (ConfigDTO.Recipients payload) ","
  /\ ResourceData.recipients (data w') <> []
  /\ (ConfigDTO.Recipients payload = "" -> ResourceData.recipients (data w') = [""])
  /\ (forall dashboards0 rest timeRange,
         ConfigDTO.Dashboards payload = dashboards0 :: rest ->
         DashboardDTO.TimeRange dashboards0 = Some timeRange ->
         TimeRangeDTO.From timeRange = "" ->
         ResourceData.time_range (data w') = ResourceData.time_range (data w)).
Proof.
  intros Hid Hget H.
  destruct (ReadReport_success meta w w' id payload Hid Hget H) as (_ & Hr & Ht).
  repeat split; trivial.
  - rewrite Hr. apply Split_nonempty.
  - intros He. rewrite Hr, He. reflexivity.
Qed.

(** Whatever a read returns, it has not written [dashboards], and it has
    written [formats] only over a set that was not empty. *)
Lemma ReadReport_frame (meta : Meta) (w : World) :
  match ReadReport meta w with
  | Returned _ w' =>
      ResourceData.dashboards (data w') = ResourceData.dashboards (data w)
      /\ (ResourceData.formats (data w) = [] -> ResourceData.formats (data w') = [])
  | Panicked _ _ => True
  end.
Proof.
  unfold ReadReport, CheckReadError. break_goal; trivial;
    (split; [reflexivity|]); cbn; intros Hf; trivial;
    match goal with
    | H : (0 <? length _)%nat = true |- _ => cbn in H; rewrite Hf in H; discriminate H
    end.
Qed.

(** X16. What a read never does: whatever [ReadReport] returns, with or
    without diagnostics, it has not touched the [dashboards] list of
    the state (the list form is not reconstructed), and it has not
    introduced [formats] where the state had none. *)
Theorem read_never_writes (meta : Meta) (w w' : World) (diags : Diagnostics) :
  ReadReport meta w = Returned diags w' ->
  ResourceData.dashboards (data w') = ResourceData.dashboards (data w)
  /\ (ResourceData.formats (data w) = [] -> ResourceData.formats (data w') = []).
Proof.
  intros H. pose proof (ReadReport_frame meta w) as Hframe.
  rewrite H in Hframe. exact Hframe.
Qed.

End ReadOutcome.

Lemma ReadReport_succeeds_iff_witness :
  (exists w',
      ReadReport (RT := goRuntime) (orgMeta (service (storedReport oneDashboard "last")))
        (created (legacyReport [] monthlySchedule)) = Returned [] w')
  <-> readable (RT := goRuntime) (storedReport oneDashboard "last").
Proof.
  apply (ReadReport_succeeds_iff (RT := goRuntime)
           (orgMeta (service (storedReport oneDashboard "last")))
           (created (legacyReport [] monthlySchedule)) 7
           (storedReport oneDashboard "last")); reflexivity.
Defined.

Lemma read_of_empty_values_witness :
  exists w',
    ReadReport (RT := goRuntime) (orgMeta (service blankReport))
      {| data := rangedReport; sent := [] |} = Returned [] w'
    /\ ResourceData.recipients (data w') = [""]
    /\ ResourceData.time_range (data w') = [TimeRangeBlock.mk "now-1h" "now"].
Proof.
  eexists. split; [vm_compute; reflexivity|].
  destruct (read_of_empty_values (RT := goRuntime) (orgMeta (service blankReport))
              {| data := rangedReport; sent := [] |} _ 7 blankReport eq_refl eq_refl
              ltac:(vm_compute; reflexivity))
    as (_ & _ & Hrecipients & Hrange).
  split; [apply Hrecipients; reflexivity|].
  exact (Hrange _ _ _ eq_refl eq_refl eq_refl).
Defined.

Lemma read_never_writes_witness :
  exists w',
    ReadReport (RT := goRuntime) (orgMeta (service (storedReport oneDashboard "last")))
      (created scenario) = Returned [] w'
    /\ ResourceData.dashboards (data w') = ResourceData.dashboards scenario.
Proof.
  eexists. split; [vm_compute; reflexivity|].
  apply (proj1 (read_never_writes (RT := goRuntime)
                  (orgMeta (service (storedReport oneDashboard "last")))
                  (created scenario) _ [] ltac:(vm_compute; reflexivity))).
Defined.

(* ===================================================================== *)
(** * The requests of the four operations, and a create followed by its read *)
(* ===================================================================== *)

Section Requests.
Context {RT : Runtime}.

(** A read whose id parses always sends the get, and nothing else. *)
Lemma ReadReport_sends (meta : Meta) (w : World) :
  requests (ReadReport meta w) =
  match ParseInt (ExistingID meta (ResourceData.Id (data w))) with
  | inl _ => sent w
  | inr id => (sent w ++ [GetReportRequest id])%list
  end.
Proof.
  unfold ReadReport. run_op.
  destruct (ParseInt _) as [err | id]; run_op; [reflexivity|].
  unfold CheckReadError. break_goal; reflexivity.
Qed.

(** X17. The requests of the four operations.  A read sends the get of
    the id in the resource id, a delete the delete of it, and neither
    sends anything when that id does not parse.  An update sends
    nothing when the id does not parse or the translation fails;
    otherwise it sends the update with the command built, followed by
    the get when the service accepted it.  A create always sends the
    create, with the command built or with no body, followed by the get
    of the id parsed from the new resource id when the service accepted
    it.  No operation sends anything else. *)
Theorem lifecycle_requests (meta : Meta) (w : World) :
  let parsed := ParseInt (ExistingID meta (ResourceData.Id (data w))) in
  let built := schemaToReportParams (data w) in
  requests (ReadReport meta w) =
    match parsed with
    | inl _ => sent w
    | inr id => (sent w ++ [GetReportRequest id])%list
    end
  /\ requests (DeleteReport meta w) =
     match parsed with
     | inl _ => sent w
     | inr id => (sent w ++ [DeleteReportRequest id])%list
     end
  /\ requests (UpdateReport meta w) =
     match parsed, built with
     | inr id, inr report =>
         match UpdateReport_response (Reports meta) id (Some report) with
         | inl _ => (sent w ++ [UpdateReportRequest id (Some report)])%list
         | inr _ => (sent w ++ [UpdateReportRequest id (Some report); GetReportRequest id])%list
         end
     | _, _ => sent w
     end
  /\ requests (CreateReport meta w) =
     match CreateReport_response (Reports meta) (valueOf built) with
     | inl _ => (sent w ++ [CreateReportRequest (valueOf built)])%list
     | inr payloadID =>
         match ParseInt (ExistingID meta
                           (MakeOrgResourceID meta (NewOrgID meta (data w)) payloadID)) with
         | inl _ => (sent w ++ [CreateReportRequest (valueOf built)])%list
         | inr id =>
             (sent w ++ [CreateReportRequest (valueOf built); GetReportRequest id])%list
         end
     end.
Proof.
  cbv zeta. split; [apply ReadReport_sends|]. split; [|split].
  - unfold DeleteReport, CheckReadError. run_op.
    destruct (ParseInt _) as [err | id]; run_op; [reflexivity|].
    break_goal; reflexivity.
  - unfold UpdateReport. run_op.
    destruct (ParseInt _) as [err | id] eqn:Hid; run_op; [reflexivity|].
    destruct (schemaToReportParams (data w)) as [err | report]; run_op; [reflexivity|].
    destruct (UpdateReport_response _ _ _) as [err | []]; run_op; [reflexivity|].
    rewrite ReadReport_sends. cbn [data sent]. rewrite Hid.
    now rewrite <- app_assoc.
  - unfold CreateReport. run_op.
    destruct (CreateReport_response _ _) as [err | payloadID]; run_op; [reflexivity|].
    rewrite ReadReport_sends. cbn [data sent].
    replace (ResourceData.Id
               (ResourceData.SetId
                  (MakeOrgResourceID meta (NewOrgID meta (data w)) payloadID) (data w)))
      with (MakeOrgResourceID meta (NewOrgID meta (data w)) payloadID) by reflexivity.
    destruct (ParseInt _); [reflexivity | now rewrite <- app_assoc].
Qed.

Lemma ReadReport_empty_panics (meta : Meta) (w : World) (id : Z) (payload : ConfigDTO.t) :
  ParseInt (ExistingID meta (ResourceData.Id (data w))) = inr id ->
  GetReport_response (Reports meta) id = inr payload ->
  ConfigDTO.Dashboards payload = [] ->
  exists w',
    ReadReport meta w = Panicked "runtime error: index out of range [0] with length 0" w'.
Proof.
  intros Hid Hget Hempty. unfold ReadReport. run_op. rewrite Hid. run_op.
  unfold CheckReadError. rewrite Hget. run_op. rewrite Hempty. run_op.
  eexists. reflexivity.
Qed.

(** In the list form and with the numeric id only, the command carries
    no binding entry. *)
Lemma command_without_binding (d : ResourceData.t) (r : Cmd.t) :
  ResourceData.dashboards d <> [] \/ ResourceData.dashboard_uid d = "" ->
  schemaToReportParams d = inr r ->
  Cmd.Dashboards r = [].
Proof.
  intros [Hl | Hu] H; [now apply (list_form_sends_no_dashboard d r Hl H)|].
  destruct (ResourceData.dashboards d) as [|b bs] eqn:Hds;
    [|apply (list_form_sends_no_dashboard d r); [congruence | exact H]].
  apply schemaToReportParams_steps in H as (base & Hb & Hs).
  rewrite Hds in Hb. simpl in Hb.
  apply setReportFrequency_frame in Hs as (-> & _).
  unfold setDeprecatedDashboardValues in Hb. cbv zeta in Hb. rewrite Hu in Hb.
  destruct (ResourceData.dashboard_id d =? 0); simpl in Hb; [discriminate Hb|].
  injection Hb as <-.
  destruct (length (ResourceData.formats d) =? 0)%nat; reflexivity.
Qed.

(** X18. A create in the list form, or by numeric dashboard id only,
    sends a command without binding entries; when the service accepts
    it and returns, on the read that follows, an entity whose
    [Dashboards] are those it was sent, [CreateReport] does not return:
    the read panics on the zeroth entry. *)
Theorem create_without_binding_panics
    (meta : Meta) (w : World) (report : Cmd.t) (payloadID id : Z) (payload : ConfigDTO.t) :
  ResourceData.dashboards (data w) <> [] \/ ResourceData.dashboard_uid (data w) = "" ->
  schemaToReportParams (data w) = inr report ->
  CreateReport_response (Reports meta) (Some report) = inr payloadID ->
  ParseInt (ExistingID meta (MakeOrgResourceID meta (NewOrgID meta (data w)) payloadID))
  = inr id ->
  GetReport_response (Reports meta) id = inr payload ->
  ConfigDTO.Dashboards payload = Cmd.Dashboards report ->
  exists w',
    CreateReport meta w
    = Panicked "runtime error: index out of range [0] with length 0" w'.
Proof.
  intros Hform Hbuilt Hcreate Hid Hget Hecho.
  rewrite (command_without_binding _ _ Hform Hbuilt) in Hecho.
  unfold CreateReport. run_op. rewrite Hbuilt. run_op. rewrite Hcreate. run_op.
  apply (ReadReport_empty_panics meta _ id payload); trivial.
Qed.

End Requests.

Lemma create_without_binding_panics_witness :
  exists w',
    CreateReport (RT := goRuntime) (orgMeta (service (storedReport [] "last")))
      {| data := scenario; sent := [] |}
    = Panicked "runtime error: index out of range [0] with length 0" w'.
Proof.
  eapply (create_without_binding_panics (RT := goRuntime)
            (orgMeta (service (storedReport [] "last")))
            {| data := scenario; sent := [] |}) with (payloadID := 7) (id := 7)
            (payload := storedReport [] "last").
  - left. discriminate.
  - vm_compute. reflexivity.
  - reflexivity.
  - reflexivity.
  - reflexivity.
  - reflexivity.
Defined.

Section LegacyRoundTrip.
Context {RT : Runtime}.

Lemma uid_command_binding (d : ResourceData.t) (r : Cmd.t) :
  ResourceData.dashboards d = [] ->
  ResourceData.dashboard_uid d <> "" ->
  schemaToReportParams d = inr r ->
  Cmd.Dashboards r =
    [ DashboardDTO.mk (Some (DashboardReportDTO.mk 0 (ResourceData.dashboard_uid d))) None
        (Some match ResourceData.time_range d with
              | tr :: _ => TimeRangeDTO.mk (TimeRangeBlock.from tr) (TimeRangeBlock.to tr)
              | [] => TimeRangeDTO.empty
              end) ].
Proof.
  intros Hl Hu H. apply schemaToReportParams_steps in H as (base & Hb & Hs).
  rewrite Hl in Hb. simpl in Hb.
  apply setReportFrequency_frame in Hs as (-> & _).
  unfold setDeprecatedDashboardValues in Hb. cbv zeta in Hb.
  destruct (String.eqb_spec (ResourceData.dashboard_uid d) ""); [contradiction|].
  rewrite andb_false_r in Hb. injection Hb as <-.
  destruct (length (ResourceData.formats d) =? 0)%nat; reflexivity.
Qed.

(** X19. Write then read in the legacy form by uid: when the entity the
    service returns carries the binding entry of the command built from
    the state, a read that succeeds leaves [dashboard_uid] and the
    legacy [time_range] (of at most one element, as the schema has it)
    exactly as they were declared. *)
Theorem legacy_uid_read_back
    (meta : Meta) (w w' : World) (report : Cmd.t) (id : Z) (payload : ConfigDTO.t) :
  ResourceData.dashboards (data w) = [] ->
  ResourceData.dashboard_uid (data w) <> "" ->
  (length (ResourceData.time_range (data w)) <= 1)%nat ->
  schemaToReportParams (data w) = inr report ->
  ParseInt (ExistingID meta (ResourceData.Id (data w))) = inr id ->
  GetReport_response (Reports meta) id = inr payload ->
  ConfigDTO.Dashboards payload = Cmd.Dashboards report ->
  ReadReport meta w = Returned [] w' ->
  ResourceData.dashboard_uid (data w') = ResourceData.dashboard_uid (data w)
  /\ ResourceData.time_range (data w') = ResourceData.time_range (data w).
Proof.
  intros Hl Hu Hlen Hbuilt Hid Hget Hecho Hread.
  rewrite (uid_command_binding _ _ Hl Hu Hbuilt) in Hecho.
  destruct (ReadReport_returned meta w w' id payload Hid Hget Hread)
    as (dashboards0 & rest & dashboard & timeRange & schedule & m
        & Hds & Hd & Htr & _ & _ & _ & Huid & Htime & _).
  rewrite Hecho in Hds. injection Hds as <- <-.
  simpl in Hd, Htr. injection Hd as <-. injection Htr as <-.
  split; [exact Huid|]. rewrite Htime.
  destruct (ResourceData.time_range (data w)) as [|tr [|tr' more]].
  - reflexivity.
  - simpl. destruct tr as [from to]. simpl. now destruct (from =? "")%string.
  - simpl in Hlen. lia.
Qed.

End LegacyRoundTrip.

Lemma legacy_uid_read_back_witness :
  exists w',
    ReadReport (RT := goRuntime) (orgMeta (service (storedReport rangedBinding "")))
      {| data := rangedReport; sent := [] |} = Returned [] w'
    /\ ResourceData.dashboard_uid (data w') = "report"
    /\ ResourceData.time_range (data w') = [TimeRangeBlock.mk "now-1h" "now"].
Proof.
  eexists. split; [vm_compute; reflexivity|].
  eapply (legacy_uid_read_back (RT := goRuntime)
            (orgMeta (service (storedReport rangedBinding "")))
            {| data := rangedReport; sent := [] |}) with (id := 7)
            (payload := storedReport rangedBinding "").
  - reflexivity.
  - discriminate.
  - simpl. lia.
  - vm_compute. reflexivity.
  - reflexivity.
  - reflexivity.
  - reflexivity.
  - vm_compute. reflexivity.
Defined.

(* ===================================================================== *)
(** * The schedule of the state across the operations *)
(* ===================================================================== *)

Lemma append_nonempty (a b : string) : b <> "" -> (a ++ b)%string <> "".
Proof. destruct a; simpl; [trivial | discriminate]. Qed.

(** The millisecond layout never prints the empty string. *)
Lemma FormatMillis_nonempty (t : time.Time) : time.FormatMillis t <> "".
Proof.
  unfold time.FormatMillis. cbv zeta. destruct (time.civil _) as [[y m] d].
  apply append_nonempty. simpl. discriminate.
Qed.

Section ScheduleKept.
Context {RT : Runtime}.

(** [strfmt.DateTime] prints a full timestamp, never the empty string. *)
Hypothesis DateTime_String_nonempty : forall t, DateTime_String t <> "".

(** The map a read builds always holds the start date as a [time.Time],
    so the schema layer never takes it. *)
Lemma ReadReport_schedule (meta : Meta) (w : World) :
  match ReadReport meta w with
  | Returned _ w' => ResourceData.schedule (data w') = ResourceData.schedule (data w)
  | Panicked _ _ => True
  end.
Proof.
  unfold ReadReport, CheckReadError. break_goal; trivial;
    match goal with
    | Hm : readSchedule ?s = inr ?m, Hb : scheduleBlockOf ?m = inr _ |- _ =>
        destruct (readSchedule_refused s m Hm
                    (or_introl (DateTime_String_nonempty (ScheduleDTO.StartDate s))))
          as [err He];
        rewrite He in Hb; discriminate Hb
    end.
Qed.

(** X6. The schedule on read.  Whatever [ReadReport] returns, with or
    without diagnostics, the schedule block of the state is the one it
    had before: the map built from the wire schedule (frequency, time
    zone, workdays flag, synthesized custom interval, last-day flag)
    holds the dates as [time.Time] under string attributes, [d.Set]
    refuses it, and its error is not looked at. *)
Theorem read_keeps_schedule (meta : Meta) (w w' : World) (diags : Diagnostics) :
  ReadReport meta w = Returned diags w' ->
  ResourceData.schedule (data w') = ResourceData.schedule (data w).
Proof.
  intros H. pose proof (ReadReport_schedule meta w) as Hkept.
  rewrite H in Hkept. exact Hkept.
Qed.

(** X20. Write then read of the schedule.  Whatever [CreateReport],
    [UpdateReport] or [DeleteReport] returns, the schedule block of the
    state is the declared one, field by field: nothing the service
    holds or echoes for the schedule comes back through the read that
    ends a create or an update. *)
Theorem apply_keeps_schedule (meta : Meta) (w w' : World) (diags : Diagnostics) :
  CreateReport meta w = Returned diags w'
  \/ UpdateReport meta w = Returned diags w'
  \/ DeleteReport meta w = Returned diags w' ->
  ResourceData.schedule (data w') = ResourceData.schedule (data w).
Proof.
  intros [H | [H | H]]; revert H.
  - unfold CreateReport. run_op.
    destruct (CreateReport_response _ _) as [err | payloadID]; run_op.
    + intros [= <- <-]. reflexivity.
    + intros H.
      match type of H with
      | ReadReport meta ?w0 = _ => pose proof (ReadReport_schedule meta w0) as Hkept
      end.
      rewrite H in Hkept. exact Hkept.
  - unfold UpdateReport. run_op.
    destruct (ParseInt _) as [err | id]; run_op; [intros [= <- <-]; reflexivity|].
    destruct (schemaToReportParams (data w)) as [err | report]; run_op;
      [intros [= <- <-]; reflexivity|].
    destruct (UpdateReport_response _ _ _) as [err | []]; run_op;
      [intros [= <- <-]; reflexivity|].
    intros H.
    match type of H with
    | ReadReport meta ?w0 = _ => pose proof (ReadReport_schedule meta w0) as Hkept
    end.
    rewrite H in Hkept. exact Hkept.
  - unfold DeleteReport, CheckReadError. break_goal; intros [= <- <-]; reflexivity.
Qed.

End ScheduleKept.

Lemma read_keeps_schedule_witness :
  exists w',
    ReadReport (RT := goRuntime) (orgMeta (service (storedReport oneDashboard "last")))
      (created (legacyReport [] dailySchedule)) = Returned [] w'
    /\ ResourceData.schedule (data w') = [dailySchedule].
Proof.
  eexists. split; [vm_compute; reflexivity|].
  exact (read_keeps_schedule (RT := goRuntime) FormatMillis_nonempty
           (orgMeta (service (storedReport oneDashboard "last")))
           (created (legacyReport [] dailySchedule)) _ []
           ltac:(vm_compute; reflexivity)).
Defined.

Lemma apply_keeps_schedule_witness :
  exists w',
    UpdateReport (RT := goRuntime) (orgMeta (service (echoOf (builtCommand rangedReport))))
      {| data := rangedReport; sent := [] |} = Returned [] w'
    /\ ResourceData.schedule (data w')
       = [ScheduleBlock.mk "weekly" "" "" true "7 days" true "GMT"].
Proof.
  eexists. split; [vm_compute; reflexivity|].
  apply (apply_keeps_schedule (RT := goRuntime) FormatMillis_nonempty
           (orgMeta (service (echoOf (builtCommand rangedReport))))
           {| data := rangedReport; sent := [] |} _ []).
  right. left. vm_compute. reflexivity.
Defined.
